(** * Cursor trail: particle pool, style renderer, settings, shortcuts,
      recording controller and host control surface.

    A shallow embedding of the single React component of the application
    ([App], with the helpers [hexToRgba] and [drawPoint]).

    - JavaScript numbers are IEEE 754 binary64 values, modelled by Rocq's
      primitive floats; arrays are lists in index order.
    - The refs and state variables of the hooks are the fields of one
      record, [App]; what the component touches of the page (local storage,
      the global control object, screen capture) is a second record,
      [Browser].
    - Every callback is a function on these records.  A state update takes
      effect when the callback that made it returns: the component has
      re-rendered, and its listeners see the new state, before the next
      event is delivered.
    - The async function [startRecording] is split at its [await].
    - The animation effect draws a frame at once when it is set up again
      after a change of style, colour, size or fade speed; that frame is an
      [ev_frame] event like the ones [requestAnimationFrame] delivers.
    - The resize effect and the cleanup run on unmount are not part of the
      model. *)

From Stdlib Require Import List String Ascii Bool Arith ZArith Lia.
From Stdlib Require Import Floats.
Import ListNotations.

(* Decimal literals denote the nearest binary64 value, as they do in the
   source language. *)
Set Warnings "-inexact-float,-register-all".

Local Open Scope string_scope.
Local Open Scope list_scope.

(** ** JavaScript numbers *)

Module JS.

(** [Math.PI], the binary64 value nearest to pi. *)
Definition Math_PI : float := 0x1.921fb54442d18p+1%float.

(** [Math.max(a, b)]: NaN if either argument is NaN, and [+0] is larger
    than [-0]. *)
Definition Math_max (a b : float) : float :=
  if is_nan a || is_nan b then nan
  else if (a <? b)%float then b
  else if (b <? a)%float then a
  else match classify a with
       | NZero => b
       | _ => a
       end.

(** [Math.min(a, b)]: NaN if either argument is NaN, and [-0] is smaller
    than [+0]. *)
Definition Math_min (a b : float) : float :=
  if is_nan a || is_nan b then nan
  else if (a <? b)%float then a
  else if (b <? a)%float then b
  else match classify a with
       | NZero => a
       | _ => b
       end.

(** The relational operators [a <= b] and [a > b] of the language are
    [leb] and [ltb] on binary64: both are false when an operand is NaN. *)
Definition le (a b : float) : bool := (a <=? b)%float.
Definition gt (a b : float) : bool := (b <? a)%float.

End JS.

(** ** Data model *)

Definition MAX_POINTS : nat := 48.
Definition STORAGE_KEY : string := "cursor-trail-settings-v1".

(** A point of [pointsRef.current]: the object literal built in
    [handleMouseMove]. *)
Record TrailPoint : Type := mkPoint {
  x : float;
  y : float;
  life : float;
  seed : float
}.

(** [{ ...point, life: nextLife }] *)
Definition with_life (point : TrailPoint) (nextLife : float) : TrailPoint :=
  {| x := x point; y := y point; life := nextLife; seed := seed point |}.

(** ** The 2D context

    The drawing calls a function makes on [ctx], in call order.  A colour
    string built by [hexToRgba(hex, alpha)] is kept as that call; a gradient
    object is the circle pair it was created with and the colour stops added
    to it.  Calls are recorded with the arguments they are given; what the
    context does with them (painting, or rejecting a non-finite radius) is
    the browser's part. *)

Inductive CssColor : Type :=
| hexToRgba (hex : string) (alpha : float)
| literal (color : string).

Record CanvasGradient : Type := mkGradient {
  x0 : float; y0 : float; r0 : float;
  x1 : float; y1 : float; r1 : float;
  colorStops : list (float * CssColor)
}.

Inductive Paint : Type :=
| paint_color (c : CssColor)
| paint_gradient (g : CanvasGradient).

Inductive CanvasOp : Type :=
| ctx_save
| ctx_restore
| ctx_clearRect (cx cy w h : float)
| ctx_fillStyle (p : Paint)
| ctx_strokeStyle (p : Paint)
| ctx_lineWidth (w : float)
| ctx_globalAlpha (a : float)
| ctx_beginPath
| ctx_moveTo (px py : float)
| ctx_lineTo (px py : float)
| ctx_arc (cx cy radius startAngle endAngle : float)
| ctx_ellipse (cx cy radiusX radiusY rotation startAngle endAngle : float)
| ctx_closePath
| ctx_fill
| ctx_stroke.

(** The [options] argument of [drawPoint]. *)
Record DrawOptions : Type := mkOptions {
  style : string;
  color : string;
  size : float
}.

(** ** Style renderer and animation step

    [Math.cos] and [Math.sin] are implementation-approximated by the
    language standard; the renderer is stated over whatever two functions
    the engine provides. *)

Section Renderer.

Variable Math_cos Math_sin : float -> float.

Local Open Scope float_scope.

(** The body of the [for] loop of the ['sparkle'] case at index [i]
    (given as the number [i] takes in the loop). *)
Definition sparkle_arm (point : TrailPoint) (radius : float) (i : float)
  : list CanvasOp :=
  let offset := seed point in
  let angle := (JS.Math_PI / 2) * i + offset in
  let length := radius * 0.9 in
  [ ctx_beginPath;
    ctx_moveTo (x point) (y point);
    ctx_lineTo (x point + Math_cos angle * length)
               (y point + Math_sin angle * length);
    ctx_stroke ].

(** The values [i] takes in [for (let i = 0; i < n; i++)] for a literal
    bound [n]: [0, 1, ..., n-1], each obtained from the previous one by
    [i++]. *)
Fixpoint counter_from (i : float) (n : nat) : list float :=
  match n with
  | O => []
  | S k => i :: counter_from (i + 1) k
  end.
Definition counter (n : nat) : list float := counter_from 0 n.

(** The star vertices of iteration [i]. *)
Definition outerAngle (spikes i : float) : float :=
  (JS.Math_PI * 2 * i) / spikes - JS.Math_PI / 2.
Definition innerAngle (spikes i : float) : float :=
  outerAngle spikes i + JS.Math_PI / spikes.
Definition outerVertex (point : TrailPoint) (radius spikes i : float)
  : float * float :=
  (x point + Math_cos (outerAngle spikes i) * radius,
   y point + Math_sin (outerAngle spikes i) * radius).
Definition innerVertex (point : TrailPoint) (radius spikes i : float)
  : float * float :=
  (x point + Math_cos (innerAngle spikes i) * (radius * 0.45),
   y point + Math_sin (innerAngle spikes i) * (radius * 0.45)).

(** The body of the [for] loop of the ['star'] case at index [i]. *)
Definition star_spike (point : TrailPoint) (radius spikes i : float)
  : list CanvasOp :=
  let '(outerX, outerY) := outerVertex point radius spikes i in
  let '(innerX, innerY) := innerVertex point radius spikes i in
  [ if (i =? 0) then ctx_moveTo outerX outerY else ctx_lineTo outerX outerY;
    ctx_lineTo innerX innerY ].

Definition drawPoint (point : TrailPoint) (options : DrawOptions)
  : list CanvasOp :=
  let alpha := JS.Math_max (life point) 0 in
  let radius := size options * alpha in
  [ctx_save] ++
  (if String.eqb (style options) "gradient" then
     let gradient :=
       {| x0 := x point; y0 := y point; r0 := 0;
          x1 := x point; y1 := y point; r1 := radius;
          colorStops := [ (0, hexToRgba (color options) alpha);
                          (1, hexToRgba (color options) 0) ] |} in
     [ ctx_fillStyle (paint_gradient gradient);
       ctx_beginPath;
       ctx_arc (x point) (y point) radius 0 (JS.Math_PI * 2);
       ctx_fill ]
   else if String.eqb (style options) "sparkle" then
     [ ctx_strokeStyle (paint_color (hexToRgba (color options) alpha));
       ctx_lineWidth (JS.Math_max 1 (radius / 6)) ] ++
     flat_map (sparkle_arm point radius) (counter 4)
   else if String.eqb (style options) "brush" then
     [ ctx_globalAlpha (alpha * 0.35);
       ctx_fillStyle (paint_color (literal (color options)));
       ctx_beginPath;
       ctx_ellipse (x point) (y point) radius (radius * 0.6) (seed point)
                   0 (JS.Math_PI * 2);
       ctx_fill ]
   else if String.eqb (style options) "star" then
     [ ctx_fillStyle (paint_color (hexToRgba (color options) alpha));
       ctx_beginPath ] ++
     flat_map (star_spike point radius 5) (counter 5) ++
     [ ctx_closePath; ctx_fill ]
   else if String.eqb (style options) "glow" then
     let glow :=
       {| x0 := x point; y0 := y point; r0 := 0;
          x1 := x point; y1 := y point; r1 := radius * 1.6;
          colorStops := [ (0, hexToRgba (color options) (alpha * 0.9));
                          (0.5, hexToRgba (color options) (alpha * 0.45));
                          (1, hexToRgba (color options) 0) ] |} in
     [ ctx_fillStyle (paint_gradient glow);
       ctx_beginPath;
       ctx_arc (x point) (y point) (radius * 1.6) 0 (JS.Math_PI * 2);
       ctx_fill ]
   else []) ++
  [ctx_restore].

(** One pass of the [for ... of] loop of [render] over the points not yet
    visited: [nextPoints] and the drawing calls made so far are carried
    along. *)
Fixpoint render_loop (points : list TrailPoint) (fadeSpeed : float)
    (options : DrawOptions) (nextPoints : list TrailPoint)
    (drawn : list CanvasOp) : list TrailPoint * list CanvasOp :=
  match points with
  | [] => (nextPoints, drawn)
  | point :: rest =>
      let nextLife := life point - fadeSpeed / 1000 in
      if JS.le nextLife 0 then
        render_loop rest fadeSpeed options nextPoints drawn
      else
        let updatedPoint := with_life point nextLife in
        render_loop rest fadeSpeed options
          (nextPoints ++ [updatedPoint])
          (drawn ++ drawPoint updatedPoint options)
  end.

(** [render]: one animation frame on a canvas of the given backing-store
    size.  Returns the new value of [pointsRef.current] and the calls made
    on the context. *)
Definition render (canvas_width canvas_height : float)
    (points : list TrailPoint) (fadeSpeed : float) (options : DrawOptions)
  : list TrailPoint * list CanvasOp :=
  render_loop points fadeSpeed options []
    [ctx_clearRect 0 0 canvas_width canvas_height].

End Renderer.

(** ** Pointer movement *)

Record MouseEvent : Type := mkMouse {
  clientX : float;
  clientY : float
}.

(** [handleMouseMove], on the value of [pointsRef.current]; [random] is the
    number [Math.random()] returns in this call. *)
Definition handleMouseMove (isActive : bool) (event : MouseEvent)
    (random : float) (points : list TrailPoint) : list TrailPoint :=
  if negb isActive then points
  else
    let pushed :=
      points ++ [ {| x := clientX event;
                     y := clientY event;
                     life := 1;
                     seed := (random * JS.Math_PI * 2)%float |} ] in
    if Nat.ltb MAX_POINTS (List.length pushed) then tl pushed else pushed.

(** ** Static catalogues *)

Record PresetConfig : Type := mkPresetConfig {
  cfg_style : string;
  cfg_color : string;
  cfg_size : float;
  cfg_fade : float
}.

Record Preset : Type := mkPreset {
  id : string;
  name : string;
  shortcut : string;
  description : string;
  config : PresetConfig
}.

(** [TRAIL_STYLES], as (id, name); the icon component is presentation. *)
Definition TRAIL_STYLES : list (string * string) :=
  [ ("gradient", "Gradient"); ("sparkle", "Sparkle"); ("brush", "Brush");
    ("star", "Star"); ("glow", "Glow") ].

(** [COLOR_PRESETS], as (name, value). *)
Definition COLOR_PRESETS : list (string * string) :=
  [ ("Purple", "#8B5CF6"); ("Blue", "#3B82F6"); ("Pink", "#EC4899");
    ("Green", "#10B981"); ("Orange", "#F59E0B"); ("Canva", "#00C4CC") ].

Definition PRESET_COMBOS : list Preset :=
  [ {| id := "tutorial-pop"; name := "Tutorial Pop"; shortcut := "1";
       description := "Sparkle bursts that highlight quick steps.";
       config := {| cfg_style := "sparkle"; cfg_color := "#F59E0B";
                    cfg_size := 28; cfg_fade := 70 |} |};
    {| id := "signature-cyan"; name := "Canva Glow"; shortcut := "2";
       description := "Soft glow in Canva signature cyan.";
       config := {| cfg_style := "glow"; cfg_color := "#00C4CC";
                    cfg_size := 32; cfg_fade := 55 |} |};
    {| id := "brush-studio"; name := "Brush Studio"; shortcut := "3";
       description := "Organic brush strokes for live sketching.";
       config := {| cfg_style := "brush"; cfg_color := "#8B5CF6";
                    cfg_size := 36; cfg_fade := 85 |} |} ].

(** ** Component state

    [recordingState] only ever holds one of the three string literals the
    component assigns to it. *)

Inductive RecordingState : Type := idle | recording | processing.

Definition RecordingState_eqb (a b : RecordingState) : bool :=
  match a, b with
  | idle, idle | recording, recording | processing, processing => true
  | _, _ => false
  end.

(** Media objects are named by the order in which the browser creates them:
    a [MediaStream] by the index of the capture that produced it, and the
    [MediaRecorder] built on a stream by that stream's index.  A [Blob] is
    its bytes, and an object URL is the blob it was created for. *)
Definition MediaStream : Type := nat.
Definition MediaRecorder : Type := nat.
Definition Blob : Type := list nat.
Inductive ObjectURL : Type := createObjectURL (blob : Blob).

(** The refs ([.current]) and state variables of [App]. *)
Record App : Type := mkApp {
  pointsRef : list TrailPoint;
  mediaRecorderRef : option MediaRecorder;
  chunksRef : list Blob;
  screenStreamRef : option MediaStream;
  isActive : bool;
  trailStyle : string;
  trailColor : string;
  trailSize : float;
  fadeSpeed : float;
  activePresetId : option string;
  settingsHydrated : bool;
  obsReady : bool;
  recordingState : RecordingState;
  recordingUrl : option ObjectURL;
  recordingError : string
}.

(** The initial values given to [useRef] and [useState]. *)
Definition initial_App : App :=
  {| pointsRef := []; mediaRecorderRef := None; chunksRef := [];
     screenStreamRef := None;
     isActive := true; trailStyle := "gradient"; trailColor := "#8B5CF6";
     trailSize := 22; fadeSpeed := 55; activePresetId := None;
     settingsHydrated := false; obsReady := false;
     recordingState := idle; recordingUrl := None; recordingError := "" |}.

(** Assignments to one ref or one state variable. *)
Definition set_pointsRef (v : list TrailPoint) (a : App) : App :=
  mkApp v (mediaRecorderRef a) (chunksRef a) (screenStreamRef a) (isActive a)
    (trailStyle a) (trailColor a) (trailSize a) (fadeSpeed a)
    (activePresetId a) (settingsHydrated a) (obsReady a) (recordingState a)
    (recordingUrl a) (recordingError a).
Definition set_mediaRecorderRef (v : option MediaRecorder) (a : App) : App :=
  mkApp (pointsRef a) v (chunksRef a) (screenStreamRef a) (isActive a)
    (trailStyle a) (trailColor a) (trailSize a) (fadeSpeed a)
    (activePresetId a) (settingsHydrated a) (obsReady a) (recordingState a)
    (recordingUrl a) (recordingError a).
Definition set_chunksRef (v : list Blob) (a : App) : App :=
  mkApp (pointsRef a) (mediaRecorderRef a) v (screenStreamRef a) (isActive a)
    (trailStyle a) (trailColor a) (trailSize a) (fadeSpeed a)
    (activePresetId a) (settingsHydrated a) (obsReady a) (recordingState a)
    (recordingUrl a) (recordingError a).
Definition set_screenStreamRef (v : option MediaStream) (a : App) : App :=
  mkApp (pointsRef a) (mediaRecorderRef a) (chunksRef a) v (isActive a)
    (trailStyle a) (trailColor a) (trailSize a) (fadeSpeed a)
    (activePresetId a) (settingsHydrated a) (obsReady a) (recordingState a)
    (recordingUrl a) (recordingError a).
Definition setIsActive (v : bool) (a : App) : App :=
  mkApp (pointsRef a) (mediaRecorderRef a) (chunksRef a) (screenStreamRef a) v
    (trailStyle a) (trailColor a) (trailSize a) (fadeSpeed a)
    (activePresetId a) (settingsHydrated a) (obsReady a) (recordingState a)
    (recordingUrl a) (recordingError a).
Definition setTrailStyle (v : string) (a : App) : App :=
  mkApp (pointsRef a) (mediaRecorderRef a) (chunksRef a) (screenStreamRef a)
    (isActive a) v (trailColor a) (trailSize a) (fadeSpeed a)
    (activePresetId a) (settingsHydrated a) (obsReady a) (recordingState a)
    (recordingUrl a) (recordingError a).
Definition setTrailColor (v : string) (a : App) : App :=
  mkApp (pointsRef a) (mediaRecorderRef a) (chunksRef a) (screenStreamRef a)
    (isActive a) (trailStyle a) v (trailSize a) (fadeSpeed a)
    (activePresetId a) (settingsHydrated a) (obsReady a) (recordingState a)
    (recordingUrl a) (recordingError a).
Definition setTrailSize (v : float) (a : App) : App :=
  mkApp (pointsRef a) (mediaRecorderRef a) (chunksRef a) (screenStreamRef a)
    (isActive a) (trailStyle a) (trailColor a) v (fadeSpeed a)
    (activePresetId a) (settingsHydrated a) (obsReady a) (recordingState a)
    (recordingUrl a) (recordingError a).
Definition setFadeSpeed (v : float) (a : App) : App :=
  mkApp (pointsRef a) (mediaRecorderRef a) (chunksRef a) (screenStreamRef a)
    (isActive a) (trailStyle a) (trailColor a) (trailSize a) v
    (activePresetId a) (settingsHydrated a) (obsReady a) (recordingState a)
    (recordingUrl a) (recordingError a).
Definition setActivePresetId (v : option string) (a : App) : App :=
  mkApp (pointsRef a) (mediaRecorderRef a) (chunksRef a) (screenStreamRef a)
    (isActive a) (trailStyle a) (trailColor a) (trailSize a) (fadeSpeed a)
    v (settingsHydrated a) (obsReady a) (recordingState a)
    (recordingUrl a) (recordingError a).
Definition setSettingsHydrated (v : bool) (a : App) : App :=
  mkApp (pointsRef a) (mediaRecorderRef a) (chunksRef a) (screenStreamRef a)
    (isActive a) (trailStyle a) (trailColor a) (trailSize a) (fadeSpeed a)
    (activePresetId a) v (obsReady a) (recordingState a)
    (recordingUrl a) (recordingError a).
Definition setObsReady (v : bool) (a : App) : App :=
  mkApp (pointsRef a) (mediaRecorderRef a) (chunksRef a) (screenStreamRef a)
    (isActive a) (trailStyle a) (trailColor a) (trailSize a) (fadeSpeed a)
    (activePresetId a) (settingsHydrated a) v (recordingState a)
    (recordingUrl a) (recordingError a).
Definition setRecordingState (v : RecordingState) (a : App) : App :=
  mkApp (pointsRef a) (mediaRecorderRef a) (chunksRef a) (screenStreamRef a)
    (isActive a) (trailStyle a) (trailColor a) (trailSize a) (fadeSpeed a)
    (activePresetId a) (settingsHydrated a) (obsReady a) v
    (recordingUrl a) (recordingError a).
Definition setRecordingUrl (v : option ObjectURL) (a : App) : App :=
  mkApp (pointsRef a) (mediaRecorderRef a) (chunksRef a) (screenStreamRef a)
    (isActive a) (trailStyle a) (trailColor a) (trailSize a) (fadeSpeed a)
    (activePresetId a) (settingsHydrated a) (obsReady a) (recordingState a)
    v (recordingError a).
Definition setRecordingError (v : string) (a : App) : App :=
  mkApp (pointsRef a) (mediaRecorderRef a) (chunksRef a) (screenStreamRef a)
    (isActive a) (trailStyle a) (trailColor a) (trailSize a) (fadeSpeed a)
    (activePresetId a) (settingsHydrated a) (obsReady a) (recordingState a)
    (recordingUrl a) v.

(** ** The browser

    The part of the page's environment the component reads and writes. *)

(** A parsed JSON text.  The members of an object are in source order. *)
Inductive JSON : Type :=
| JNull
| JBool (b : bool)
| JNumber (n : float)
| JString (s : string)
| JArray (items : list JSON)
| JObject (members : list (string * JSON)).

(** The item stored under [STORAGE_KEY], by what [getItem] and [JSON.parse]
    make of it: no item ([getItem] returns null), the empty string, a text
    [JSON.parse] throws on, or a text that parses to a value. *)
Inductive StoredItem : Type :=
| no_item
| empty_text
| malformed
| parses_to (v : JSON).

(** The entry points of the control surface, by the callback each holds. *)
Inductive EntryPoint : Type :=
| call_toggle
| call_applyPreset
| call_startRecording
| call_stopRecording.

(** The object literal [controls]: [ident] stands for the identity of the
    object ([===] compares identities), [entries] for its own properties in
    creation order. *)
Record Controls : Type := mkControls {
  ident : nat;
  entries : list (string * EntryPoint)
}.

Record Browser : Type := mkBrowser {
  (** [window.localStorage], at [STORAGE_KEY] *)
  storage : StoredItem;
  (** [window.cursorTrailControls]; [None] when the property is absent *)
  cursorTrailControls : option Controls;
  (** number of objects allocated so far, the identity of the next one *)
  objects_created : nat;
  (** truthiness of [navigator?.mediaDevices?.getDisplayMedia] *)
  has_getDisplayMedia : bool;
  (** [getDisplayMedia] promises not yet settled *)
  unsettled : nat;
  (** number of streams handed out so far, the name of the next one *)
  streams_created : nat;
  (** streams with a track that has not been stopped *)
  live_streams : list MediaStream;
  (** recorders started whose ['stop'] event has not been dispatched *)
  active_recorders : list MediaRecorder;
  (** the calls made on the 2D context during the last frame *)
  drawn : list CanvasOp
}.

Definition set_storage (v : StoredItem) (b : Browser) : Browser :=
  mkBrowser v (cursorTrailControls b) (objects_created b)
    (has_getDisplayMedia b) (unsettled b) (streams_created b)
    (live_streams b) (active_recorders b) (drawn b).
Definition set_cursorTrailControls (v : option Controls) (b : Browser)
  : Browser :=
  mkBrowser (storage b) v (objects_created b)
    (has_getDisplayMedia b) (unsettled b) (streams_created b)
    (live_streams b) (active_recorders b) (drawn b).
Definition set_objects_created (v : nat) (b : Browser) : Browser :=
  mkBrowser (storage b) (cursorTrailControls b) v
    (has_getDisplayMedia b) (unsettled b) (streams_created b)
    (live_streams b) (active_recorders b) (drawn b).
Definition set_unsettled (v : nat) (b : Browser) : Browser :=
  mkBrowser (storage b) (cursorTrailControls b) (objects_created b)
    (has_getDisplayMedia b) v (streams_created b)
    (live_streams b) (active_recorders b) (drawn b).
Definition set_streams_created (v : nat) (b : Browser) : Browser :=
  mkBrowser (storage b) (cursorTrailControls b) (objects_created b)
    (has_getDisplayMedia b) (unsettled b) v
    (live_streams b) (active_recorders b) (drawn b).
Definition set_live_streams (v : list MediaStream) (b : Browser) : Browser :=
  mkBrowser (storage b) (cursorTrailControls b) (objects_created b)
    (has_getDisplayMedia b) (unsettled b) (streams_created b)
    v (active_recorders b) (drawn b).
Definition set_active_recorders (v : list MediaRecorder) (b : Browser)
  : Browser :=
  mkBrowser (storage b) (cursorTrailControls b) (objects_created b)
    (has_getDisplayMedia b) (unsettled b) (streams_created b)
    (live_streams b) v (drawn b).
Definition set_drawn (v : list CanvasOp) (b : Browser) : Browser :=
  mkBrowser (storage b) (cursorTrailControls b) (objects_created b)
    (has_getDisplayMedia b) (unsettled b) (streams_created b)
    (live_streams b) (active_recorders b) v.

(** [stream.getTracks().forEach((track) => track.stop())] *)
Definition stop_tracks (stream : MediaStream) (b : Browser) : Browser :=
  set_live_streams
    (filter (fun s => negb (Nat.eqb s stream)) (live_streams b)) b.

(** ** Settings persistence *)

(** Reading property [key] of a parsed object: the value of the last member
    of that name, [None] for [undefined]. *)
Fixpoint get_member (key : string) (members : list (string * JSON))
  : option JSON :=
  match members with
  | [] => None
  | (k, v) :: rest =>
      match get_member key rest with
      | Some later => Some later
      | None => if String.eqb k key then Some v else None
      end
  end.

(** [parsed.key] for a [parsed] other than null: arrays, strings, numbers
    and booleans have no property of the names read here. *)
Definition property (parsed : JSON) (key : string) : option JSON :=
  match parsed with
  | JObject members => get_member key members
  | _ => None
  end.

(** The six guarded setter calls of the load effect, for a [parsed] other
    than null: [if (typeof parsed.k === t) setK(parsed.k)]. *)
Definition restore_isActive (parsed : JSON) (a : App) : App :=
  match property parsed "isActive" with
  | Some (JBool v) => setIsActive v a
  | _ => a
  end.
Definition restore_trailStyle (parsed : JSON) (a : App) : App :=
  match property parsed "trailStyle" with
  | Some (JString v) => setTrailStyle v a
  | _ => a
  end.
Definition restore_trailColor (parsed : JSON) (a : App) : App :=
  match property parsed "trailColor" with
  | Some (JString v) => setTrailColor v a
  | _ => a
  end.
Definition restore_trailSize (parsed : JSON) (a : App) : App :=
  match property parsed "trailSize" with
  | Some (JNumber v) => setTrailSize v a
  | _ => a
  end.
Definition restore_fadeSpeed (parsed : JSON) (a : App) : App :=
  match property parsed "fadeSpeed" with
  | Some (JNumber v) => setFadeSpeed v a
  | _ => a
  end.
Definition restore_activePresetId (parsed : JSON) (a : App) : App :=
  match property parsed "activePresetId" with
  | Some (JString v) => setActivePresetId (Some v) a
  | _ => a
  end.

(** The six calls, in source order. *)
Definition restore (parsed : JSON) (a : App) : App :=
  restore_activePresetId parsed
    (restore_fadeSpeed parsed
      (restore_trailSize parsed
        (restore_trailColor parsed
          (restore_trailStyle parsed
            (restore_isActive parsed a))))).

(** The settings load effect (run once, on mount).  Reading a property of
    null throws; the exception is caught and only logged. *)
Definition load_effect (b : Browser) (a : App) : App :=
  setSettingsHydrated true
    match storage b with
    | no_item | empty_text | malformed => a
    | parses_to JNull => a
    | parses_to parsed => restore parsed a
    end.

(** What [JSON.stringify] writes for a number, read back: a non-finite
    number is written as [null], and negative zero as [0]. *)
Definition JSON_number (n : float) : JSON :=
  if is_finite n then JNumber (if is_zero n then 0%float else n) else JNull.

(** [JSON.stringify(payload)], read back. *)
Definition payload (a : App) : JSON :=
  JObject
    [ ("isActive", JBool (isActive a));
      ("trailStyle", JString (trailStyle a));
      ("trailColor", JString (trailColor a));
      ("trailSize", JSON_number (trailSize a));
      ("fadeSpeed", JSON_number (fadeSpeed a));
      ("activePresetId",
        match activePresetId a with
        | Some v => JString v
        | None => JNull
        end) ].

(** The settings save effect. *)
Definition save_effect (a : App) (b : Browser) : Browser :=
  if negb (settingsHydrated a) then b
  else set_storage (parses_to (payload a)) b.

(** ** Presets *)

(** [applyPreset(preset)]; [None] is a falsy argument. *)
Definition applyPreset (preset : option Preset) (a : App) : App :=
  match preset with
  | None => a
  | Some preset =>
      setActivePresetId (Some (id preset))
        (setFadeSpeed (cfg_fade (config preset))
          (setTrailSize (cfg_size (config preset))
            (setTrailColor (cfg_color (config preset))
              (setTrailStyle (cfg_style (config preset)) a))))
  end.

(** ** Recording controller

    [startRecording] is an async function: it runs up to its [await] when
    called, and resumes when the promise of [getDisplayMedia] settles.  The
    two halves are separate transitions; whatever happens in between sees
    the state the first half left. *)

Definition System : Type := (App * Browser)%type.

(** [message || fallback] for a message that may be missing. *)
Definition or_default (message : option string) (fallback : string) : string :=
  match message with
  | None => fallback
  | Some m => if String.eqb m "" then fallback else m
  end.

(** [startRecording], up to the [await]. *)
Definition startRecording (s : System) : System :=
  let (a, b) := s in
  if RecordingState_eqb (recordingState a) recording then s
  else if negb (has_getDisplayMedia b) then
    (setRecordingError "Screen capture is not supported in this browser yet." a,
     b)
  else
    (setRecordingUrl None (setRecordingError "" a),
     set_unsettled (S (unsettled b)) b).

(** The [catch] block of [startRecording]; [message] is [error?.message]. *)
Definition startRecording_catch (message : option string) (s : System)
  : System :=
  let (a, b) := s in
  let a := setRecordingError
             (or_default message "Unable to start screen recording.") a in
  let (a, b) :=
    match screenStreamRef a with
    | Some held => (set_screenStreamRef None a, stop_tracks held b)
    | None => (a, b)
    end in
  (setRecordingState idle a, b).

(** What happens between the grant and the end of the [try] block: the
    [MediaRecorder] constructor throws (the mime type is not supported),
    [recorder.start()] throws, or the recorder starts. *)
Inductive Granted : Type :=
| constructor_throws (message : option string)
| start_throws (message : option string)
| starts.

(** [startRecording], resumed with the stream the user granted.  The
    handlers [ondataavailable] and [onstop] installed here are
    [recorder_ondataavailable] and [recorder_onstop] below. *)
Definition startRecording_granted (outcome : Granted) (s : System)
  : option System :=
  let (a, b) := s in
  match unsettled b with
  | O => None
  | S waiting =>
      let stream : MediaStream := streams_created b in
      let b := set_live_streams (stream :: live_streams b)
                 (set_streams_created (S stream) (set_unsettled waiting b)) in
      match outcome with
      | constructor_throws message => Some (startRecording_catch message (a, b))
      | start_throws message =>
          let recorder : MediaRecorder := stream in
          let a := set_chunksRef [] a in
          let a := set_mediaRecorderRef (Some recorder) a in
          let a := set_screenStreamRef (Some stream) a in
          Some (startRecording_catch message (a, b))
      | starts =>
          let recorder : MediaRecorder := stream in
          let a := set_chunksRef [] a in
          let a := set_mediaRecorderRef (Some recorder) a in
          let a := set_screenStreamRef (Some stream) a in
          let b := set_active_recorders (recorder :: active_recorders b) b in
          Some (setRecordingState recording a, b)
      end
  end.

(** [startRecording], resumed with the rejection of [getDisplayMedia]
    (permission denied, picker dismissed). *)
Definition startRecording_rejected (message : option string) (s : System)
  : option System :=
  let (a, b) := s in
  match unsettled b with
  | O => None
  | S waiting => Some (startRecording_catch message (a, set_unsettled waiting b))
  end.

Definition is_active (recorder : MediaRecorder) (b : Browser) : bool :=
  existsb (Nat.eqb recorder) (active_recorders b).

(** [recorder.ondataavailable], with [event.data]. *)
Definition recorder_ondataavailable (recorder : MediaRecorder) (data : Blob)
    (s : System) : option System :=
  let (a, b) := s in
  if negb (is_active recorder b) then None
  else if Nat.ltb 0 (List.length data)
       then Some (set_chunksRef (chunksRef a ++ [data]) a, b)
       else Some s.

(** [recorder.onstop]; the [stream] the closure holds is the one the
    recorder was built on.  The browser dispatches ['stop'] after
    [recorder.stop()] or once the stream has ended; the model lets it arrive
    at any time while the recorder has not stopped yet. *)
Definition recorder_onstop (recorder : MediaRecorder) (s : System)
  : option System :=
  let (a, b) := s in
  if negb (is_active recorder b) then None
  else
    let stream : MediaStream := recorder in
    let blob : Blob := List.concat (chunksRef a) in
    let url := createObjectURL blob in
    let a := setRecordingUrl (Some url) a in
    let a := set_chunksRef [] a in
    let b := stop_tracks stream b in
    let a := set_screenStreamRef None a in
    let b := set_active_recorders
               (filter (fun r => negb (Nat.eqb r recorder))
                       (active_recorders b)) b in
    Some (setRecordingState idle a, b).

(** [stopRecording].  The call [mediaRecorderRef.current.stop()] asks the
    recorder to stop; what the browser does with the request is the
    ['stop'] event ([recorder_onstop]), which the model lets arrive at any
    time, asked for or not.  The request itself leaves no mark on
    [Browser]. *)
Definition stopRecording (s : System) : System :=
  let (a, b) := s in
  if negb (RecordingState_eqb (recordingState a) recording) then s
  else
    match mediaRecorderRef a with
    | None => s
    | Some _ =>
        (set_mediaRecorderRef None (setRecordingState processing a), b)
    end.

(** ** Keyboard shortcuts *)

Record KeyboardEvent : Type := mkKey {
  metaKey : bool;
  ctrlKey : bool;
  altKey : bool;
  target_tagName : string;
  key : string
}.

(** [String.prototype.toLowerCase] on the Latin letters; no character
    outside them lowers to ["t"] or ["r"], the two strings the result is
    compared with. *)
Definition lower (c : ascii) : ascii :=
  let n := nat_of_ascii c in
  if Nat.leb 65 n && Nat.leb n 90 then ascii_of_nat (n + 32) else c.

Fixpoint toLowerCase (s : string) : string :=
  match s with
  | EmptyString => EmptyString
  | String c rest => String (lower c) (toLowerCase rest)
  end.

(** The [keydown] handler.  The boolean tells whether
    [event.preventDefault()] was called. *)
Definition handler (event : KeyboardEvent) (s : System) : bool * System :=
  let (a, b) := s in
  if metaKey event || ctrlKey event || altKey event then (false, s)
  else if existsb (String.eqb (target_tagName event)) ["INPUT"; "TEXTAREA"]
  then (false, s)
  else
    let lowered := toLowerCase (key event) in
    if String.eqb lowered "t" then
      (true, (setIsActive (negb (isActive a)) a, b))
    else if String.eqb lowered "r" then
      (true,
       if RecordingState_eqb (recordingState a) recording
       then stopRecording s else startRecording s)
    else if String.eqb (key event) "[" then
      (true,
       (setActivePresetId None
          (setTrailSize (JS.Math_max 12 (trailSize a - 2)%float) a), b))
    else if String.eqb (key event) "]" then
      (true,
       (setActivePresetId None
          (setTrailSize (JS.Math_min 60 (trailSize a + 2)%float) a), b))
    else
      match List.find (fun combo => String.eqb (shortcut combo) (key event))
                 PRESET_COMBOS with
      | Some preset => (true, (applyPreset (Some preset) a, b))
      | None => (false, s)
      end.

(** ** Control surface *)

(** The control-surface effect: build [controls] and publish it. *)
Definition controls_effect (b : Browser) : Browser * Controls :=
  let controls :=
    {| ident := objects_created b;
       entries := [ ("toggle", call_toggle);
                    ("applyPreset", call_applyPreset);
                    ("startRecording", call_startRecording);
                    ("stopRecording", call_stopRecording) ] |} in
  (set_cursorTrailControls (Some controls)
     (set_objects_created (S (objects_created b)) b),
   controls).

(** The cleanup the effect returns, closed over [controls]. *)
Definition controls_cleanup (controls : Controls) (b : Browser) : Browser :=
  match cursorTrailControls b with
  | Some current =>
      if Nat.eqb (ident current) (ident controls)
      then set_cursorTrailControls None b
      else b
  | None => b
  end.

(** Own property [name] of a control object. *)
Fixpoint entry (name : string) (es : list (string * EntryPoint))
  : option EntryPoint :=
  match es with
  | [] => None
  | (n, e) :: rest => if String.eqb n name then Some e else entry name rest
  end.

(** The body of each entry point; [arg] is the first argument of the call. *)
Definition invoke (e : EntryPoint) (arg : string) (s : System) : System :=
  let (a, b) := s in
  match e with
  | call_toggle => (setIsActive (negb (isActive a)) a, b)
  | call_applyPreset =>
      match List.find (fun combo => String.eqb (id combo) arg) PRESET_COMBOS with
      | Some preset => (applyPreset (Some preset) a, b)
      | None => s
      end
  | call_startRecording => startRecording s
  | call_stopRecording => stopRecording s
  end.

(** [window.cursorTrailControls[name](arg)] by the embedding host, for
    [name] an own property of the object; [None] when the object has no own
    property of that name.  What the object inherits from
    [Object.prototype] is not part of the model. *)
Definition host_call (name : string) (arg : string) (s : System)
  : option System :=
  match cursorTrailControls (snd s) with
  | None => None
  | Some controls =>
      match entry name (entries controls) with
      | None => None
      | Some e => Some (invoke e arg s)
      end
  end.

(** ** Panel controls

    The [onClick] and [onChange] handlers of the settings panel. *)

Definition click_toggle (a : App) : App := setIsActive (negb (isActive a)) a.

Definition click_style (style_id : string) (a : App) : App :=
  setActivePresetId None (setTrailStyle style_id a).

Definition click_color (value : string) (a : App) : App :=
  setActivePresetId None (setTrailColor value a).

(** [value] is [Number(event.target.value)] of the range input. *)
Definition change_size (value : float) (a : App) : App :=
  setActivePresetId None (setTrailSize value a).

Definition change_fade (value : float) (a : App) : App :=
  setActivePresetId None (setFadeSpeed value a).

Definition click_record (s : System) : System :=
  if RecordingState_eqb (recordingState (fst s)) recording
  then stopRecording s else startRecording s.

(** ** The mounted component

    Everything that can happen to a mounted [App]: the events its listeners
    and callbacks are registered for. *)

Inductive Event : Type :=
| ev_mousemove (event : MouseEvent) (random : float)
| ev_frame (canvas_width canvas_height : float)
| ev_obs_poll (obsstudio : bool)
| ev_keydown (event : KeyboardEvent)
| ev_click_toggle
| ev_click_style (index : nat)
| ev_click_color (index : nat)
| ev_click_preset (index : nat)
| ev_change_size (value : float)
| ev_change_fade (value : float)
| ev_click_record
| ev_host_call (name : string) (arg : string)
| ev_granted (outcome : Granted)
| ev_rejected (message : option string)
| ev_dataavailable (recorder : MediaRecorder) (data : Blob)
| ev_stop (recorder : MediaRecorder).

(** A mounted component: its state, the browser, and the [controls] object
    the pending cleanup of the control-surface effect is closed over. *)
Record Mounted : Type := mkMounted {
  state : System;
  published : Controls
}.

Section Component.

Variable Math_cos Math_sin : float -> float.

(** The callback run for an event; [None] when the browser cannot
    deliver the event in this state. *)
Definition dispatch (e : Event) (s : System) : option System :=
  let (a, b) := s in
  match e with
  | ev_mousemove event random =>
      Some (set_pointsRef
              (handleMouseMove (isActive a) event random (pointsRef a)) a, b)
  | ev_frame canvas_width canvas_height =>
      let (nextPoints, calls) :=
        render Math_cos Math_sin canvas_width canvas_height
          (pointsRef a) (fadeSpeed a)
          {| style := trailStyle a; color := trailColor a;
             size := trailSize a |} in
      Some (set_pointsRef nextPoints a, set_drawn calls b)
  | ev_obs_poll obsstudio => Some (setObsReady obsstudio a, b)
  | ev_keydown event => Some (snd (handler event s))
  | ev_click_toggle => Some (click_toggle a, b)
  | ev_click_style index =>
      option_map (fun entry => (click_style (fst entry) a, b))
                 (nth_error TRAIL_STYLES index)
  | ev_click_color index =>
      option_map (fun entry => (click_color (snd entry) a, b))
                 (nth_error COLOR_PRESETS index)
  | ev_click_preset index =>
      option_map (fun preset => (applyPreset (Some preset) a, b))
                 (nth_error PRESET_COMBOS index)
  | ev_change_size value => Some (change_size value a, b)
  | ev_change_fade value => Some (change_fade value a, b)
  | ev_click_record => Some (click_record s)
  | ev_host_call name arg => host_call name arg s
  | ev_granted outcome => startRecording_granted outcome s
  | ev_rejected message => startRecording_rejected message s
  | ev_dataavailable recorder data =>
      recorder_ondataavailable recorder data s
  | ev_stop recorder => recorder_onstop recorder s
  end.

(** The effects of the render that follows a state change: the settings
    are saved, and when [recordingState] changed (and with it the
    identities of [startRecording] and [stopRecording]) the
    control-surface effect is cleaned up and run again. *)
Definition commit (before : App) (after : System) (controls : Controls)
  : Mounted :=
  let (a, b) := after in
  let b := save_effect a b in
  if RecordingState_eqb (recordingState before) (recordingState a)
  then {| state := (a, b); published := controls |}
  else
    let (b, controls) := controls_effect (controls_cleanup controls b) in
    {| state := (a, b); published := controls |}.

Definition step (e : Event) (m : Mounted) : option Mounted :=
  match dispatch e (state m) with
  | None => None
  | Some after => Some (commit (fst (state m)) after (published m))
  end.

Fixpoint run (events : list Event) (m : Mounted) : option Mounted :=
  match events with
  | [] => Some m
  | e :: rest =>
      match step e m with
      | None => None
      | Some m' => run rest m'
      end
  end.

(** Mounting on a page: the load effect and the control-surface effect
    run, then the save effect of the render the loaded settings cause. *)
Definition mount (page : Browser) : Mounted :=
  let a := load_effect page initial_App in
  let (b, controls) := controls_effect page in
  {| state := (a, save_effect a b); published := controls |}.

(** A page on which the component has not yet requested a capture. *)
Definition fresh_page (page : Browser) : Prop :=
  unsettled page = 0 /\ active_recorders page = [].

Inductive reachable : Mounted -> Prop :=
| reach_mount : forall page, fresh_page page -> reachable (mount page)
| reach_step : forall m e m',
    reachable m -> step e m = Some m' -> reachable m'.

End Component.

(** ** Reference definitions

    The particle pool as the design describes it, to compare the animation
    step with. *)

(** [life -= fadeRate/1000] on one point. *)
Definition decay (fadeRate : float) (point : TrailPoint) : TrailPoint :=
  with_life point (life point - fadeRate / 1000)%float.

(** A point is removed once its life is [<= 0]. *)
Definition expired (point : TrailPoint) : bool := JS.le (life point) 0.

(** [advance(fadeRate)]: every point decays, expired points are removed,
    the others keep their order. *)
Definition advance (fadeRate : float) (pool : list TrailPoint)
  : list TrailPoint :=
  filter (fun point => negb (expired point)) (map (decay fadeRate) pool).

(** The path of a closed polygon through the given vertices. *)
Definition closed_polygon (vertices : list (float * float)) : list CanvasOp :=
  match vertices with
  | [] => [ctx_beginPath; ctx_closePath]
  | (vx, vy) :: others =>
      [ctx_beginPath; ctx_moveTo vx vy] ++
      map (fun v => ctx_lineTo (fst v) (snd v)) others ++
      [ctx_closePath]
  end.

Section Frames.

Variable Math_cos Math_sin : float -> float.

(** The pool after [n] consecutive animation frames with the same
    settings. *)
Fixpoint frames (n : nat) (canvas_width canvas_height : float)
    (fadeSpeed : float) (options : DrawOptions) (points : list TrailPoint)
  : list TrailPoint :=
  match n with
  | O => points
  | S k =>
      frames k canvas_width canvas_height fadeSpeed options
        (fst (render Math_cos Math_sin canvas_width canvas_height
                points fadeSpeed options))
  end.

End Frames.

(** The [keydown] handler acts on an event only when no modifier key is
    held and the event does not come from a text field. *)
Definition handled (event : KeyboardEvent) : bool :=
  negb (metaKey event || ctrlKey event || altKey event) &&
  negb (existsb (String.eqb (target_tagName event)) ["INPUT"; "TEXTAREA"]).


(** ** Sample inputs *)

(** An engine's cosine and sine, here by their first Taylor terms. *)
Definition sample_cos (a : float) : float := (1 - a * a / 2)%float.
Definition sample_sin (a : float) : float := (a - a * a * a / 6)%float.

(** A page that supports screen capture and has nothing stored. *)
Definition sample_page : Browser :=
  {| storage := no_item; cursorTrailControls := None; objects_created := 0;
     has_getDisplayMedia := true; unsettled := 0; streams_created := 0;
     live_streams := []; active_recorders := []; drawn := [] |}.

Definition sample_event : MouseEvent := {| clientX := 120; clientY := 80 |}.

Definition sample_key (k : string) : KeyboardEvent :=
  {| metaKey := false; ctrlKey := false; altKey := false;
     target_tagName := "BODY"; key := k |}.

(** 48 pointer moves, then one more. *)
Definition burst (n : nat) : list Event :=
  repeat (ev_mousemove sample_event 0.5%float) n.

(** One full recording, up to the request to stop. *)
Definition record_then_stop : list Event :=
  [ev_click_record; ev_granted starts; ev_click_record].

(** The sample page after the given events ([mount] of it when they cannot
    all be delivered). *)
Definition sample_after (events : list Event) : Mounted :=
  match run sample_cos sample_sin events (mount sample_page) with
  | Some m => m
  | None => mount sample_page
  end.

(** A point half-way through its life, a preset, and a control object some
    other instance made. *)
Definition sample_point : TrailPoint :=
  {| x := 10; y := 20; life := 0.5; seed := 1 |}.

Definition canva_glow : Preset :=
  {| id := "signature-cyan"; name := "Canva Glow"; shortcut := "2";
     description := "Soft glow in Canva signature cyan.";
     config := {| cfg_style := "glow"; cfg_color := "#00C4CC";
                  cfg_size := 32; cfg_fade := 55 |} |}.

Definition foreign_controls : Controls :=
  {| ident := 7; entries := [("toggle", call_toggle)] |}.

(** The settings of the design's round-trip example, and the stored object
    whose [trailSize] is a string. *)
Definition example_settings : App :=
  setSettingsHydrated true
    (setActivePresetId None
      (setFadeSpeed 30
        (setTrailSize 40
          (setTrailColor "#3B82F6"
            (setTrailStyle "glow" (setIsActive false initial_App)))))).

Definition forty_members : list (string * JSON) :=
  [ ("isActive", JBool false); ("trailStyle", JString "glow");
    ("trailColor", JString "#3B82F6"); ("trailSize", JString "forty");
    ("fadeSpeed", JNumber 30); ("activePresetId", JNull) ].

(** ** Colour strings

    [hexToRgba(hex, alpha)] computed: the three channels the template
    literal prints, and the Number it is given as alpha.  A string is the
    sequence of its code units, all below 256 here. *)

Module Color.

(** [hex.replace('#', '')]: the first ['#'] of the string is removed. *)
Fixpoint remove_first_hash (s : string) : string :=
  match s with
  | EmptyString => EmptyString
  | String c rest =>
      if Ascii.eqb c "#" then rest else String c (remove_first_hash rest)
  end.

(** The white space and line terminators [parseInt] skips: TAB, LF, VT, FF,
    CR, SP and NBSP (the others are above 255). *)
Definition is_StrWhiteSpaceChar (c : ascii) : bool :=
  let n := nat_of_ascii c in
  (Nat.leb 9 n && Nat.leb n 13) || Nat.eqb n 32 || Nat.eqb n 160.

Fixpoint trim_start (s : string) : string :=
  match s with
  | EmptyString => EmptyString
  | String c rest => if is_StrWhiteSpaceChar c then trim_start rest else s
  end.

(** The value of a radix-16 digit. *)
Definition hex_digit (c : ascii) : option Z :=
  let n := Z.of_nat (nat_of_ascii c) in
  if (48 <=? n)%Z && (n <=? 57)%Z then Some (n - 48)%Z
  else if (97 <=? n)%Z && (n <=? 102)%Z then Some (n - 87)%Z
  else if (65 <=? n)%Z && (n <=? 70)%Z then Some (n - 55)%Z
  else None.

(** The integer the longest prefix of radix-16 digits spells, after the
    digits already read ([acc]). *)
Fixpoint hex_prefix (s : string) (acc : Z) : Z :=
  match s with
  | EmptyString => acc
  | String c rest =>
      match hex_digit c with
      | Some d => hex_prefix rest (acc * 16 + d)%Z
      | None => acc
      end
  end.

Definition starts_with_hex_digit (s : string) : bool :=
  match s with
  | EmptyString => false
  | String c _ => match hex_digit c with Some _ => true | None => false end
  end.

(** [parseInt(s, 16)] before its conversion to a Number: leading white space
    is skipped, then a sign, then a [0x] or [0X] prefix; the result is the
    signed integer the following digits spell, [None] (NaN) when no digit
    follows. *)
Definition parseInt16 (s : string) : option Z :=
  let s := trim_start s in
  let negative :=
    match s with
    | String c _ => Ascii.eqb c "-"
    | EmptyString => false
    end in
  let s :=
    match s with
    | String c rest => if Ascii.eqb c "-" || Ascii.eqb c "+" then rest else s
    | EmptyString => s
    end in
  let s :=
    match s with
    | String c (String c' rest) =>
        if Ascii.eqb c "0" && (Ascii.eqb c' "x" || Ascii.eqb c' "X")
        then rest else s
    | _ => s
    end in
  if starts_with_hex_digit s
  then Some (if negative then - hex_prefix s 0 else hex_prefix s 0)%Z
  else None.

(** The integer held by the Number nearest to the integer [n] (53
    significant bits, ties to even); [None] when [n] rounds to an
    infinity. *)
Definition round_binary64 (n : Z) : option Z :=
  let m := Z.abs n in
  if (m <? 2 ^ 53)%Z then Some n
  else
    let k := (Z.log2 m - 52)%Z in
    let q := Z.shiftr m k in
    let r := (m - Z.shiftl q k)%Z in
    let half := (2 ^ (k - 1))%Z in
    let q := if (half <? r)%Z || ((r =? half)%Z && Z.odd q)
             then (q + 1)%Z else q in
    let v := Z.shiftl q k in
    if (2 ^ 1024 <=? v)%Z then None else Some (Z.sgn n * v)%Z.

(** [ToInt32] of the Number [parseInt] returns: NaN and the infinities go
    to 0, an integer is taken modulo 2^32 into [-2^31, 2^31). *)
Definition ToInt32 (parsed : option Z) : Z :=
  match parsed with
  | None => 0%Z
  | Some n =>
      match round_binary64 n with
      | None => 0%Z
      | Some v =>
          let m := (v mod 2 ^ 32)%Z in
          if (2 ^ 31 <=? m)%Z then (m - 2 ^ 32)%Z else m
      end
  end.

(** The string [rgba(r, g, b, alpha)], by the three integers it prints and
    the Number interpolated as alpha (how that Number is printed is not
    modelled). *)
Record RgbaString : Type := mkRgba {
  red : Z;
  green : Z;
  blue : Z;
  opacity : float
}.

Definition hexToRgba (hex : string) (alpha : float) : RgbaString :=
  let sanitized := remove_first_hash hex in
  let bigint := ToInt32 (parseInt16 sanitized) in
  {| red := Z.land (Z.shiftr bigint 16) 255;
     green := Z.land (Z.shiftr bigint 8) 255;
     blue := Z.land bigint 255;
     opacity := alpha |}.

End Color.

(** ** Further reference definitions *)

(** The Number an integer position of a range input reports. *)
Fixpoint integer (n : nat) : float :=
  match n with
  | O => 0%float
  | S k => (integer k + 1)%float
  end.

(** The life a point of life [l] has after [n] more frames at the given
    fade speed, [None] once a frame has removed it. *)
Fixpoint life_after (n : nat) (fadeSpeed l : float) : option float :=
  match n with
  | O => Some l
  | S k =>
      let next := (l - fadeSpeed / 1000)%float in
      if JS.le next 0 then None else life_after k fadeSpeed next
  end.

(** The number of frames it takes to bring a life of 1 to zero at
    [fadeSpeed / 1000] per frame, in exact arithmetic: the ceiling of
    [1000 / fadeSpeed]. *)
Definition exact_lifetime (fadeSpeed : nat) : nat :=
  (1000 + fadeSpeed - 1) / fadeSpeed.

(** The point [handleMouseMove] creates. *)
Definition created (event : MouseEvent) (random : float) : TrailPoint :=
  {| x := clientX event; y := clientY event; life := 1;
     seed := (random * JS.Math_PI * 2)%float |}.

(** Successive pointer moves while the trail is active. *)
Definition moves (events : list (MouseEvent * float))
    (points : list TrailPoint) : list TrailPoint :=
  fold_left (fun pts e => handleMouseMove true (fst e) (snd e) pts)
            events points.

(** The last [n] elements of a list. *)
Definition last_n {A : Type} (n : nat) (l : list A) : list A :=
  skipn (List.length l - n) l.

(** The same key pressed [n] times. *)
Fixpoint presses (n : nat) (event : KeyboardEvent) (s : System) : System :=
  match n with
  | O => s
  | S k => presses k event (snd (handler event s))
  end.

(** The six persisted settings of a component. *)
Definition settings (a : App)
  : bool * string * string * float * float * option string :=
  (isActive a, trailStyle a, trailColor a, trailSize a, fadeSpeed a,
   activePresetId a).

(** A Number [JSON.stringify] writes as itself. *)
Definition survives_JSON (n : float) : bool :=
  is_finite n && negb (is_zero n).

(** The chunks a recorder delivers, one ['dataavailable'] event each. *)
Fixpoint deliver (recorder : MediaRecorder) (chunks : list Blob)
    (s : System) : option System :=
  match chunks with
  | [] => Some s
  | data :: rest =>
      match recorder_ondataavailable recorder data s with
      | Some s' => deliver recorder rest s'
      | None => None
      end
  end.

(** One whole capture session: [startRecording], the grant, the chunks the
    recorder delivers, [stopRecording], and the recorder's ['stop']. *)
Definition capture_session (chunks : list Blob) (s : System)
  : option System :=
  let recorder : MediaRecorder := streams_created (snd s) in
  match startRecording_granted starts (startRecording s) with
  | None => None
  | Some recording_now =>
      match deliver recorder chunks recording_now with
      | None => None
      | Some delivered => recorder_onstop recorder (stopRecording delivered)
      end
  end.

(** The non-empty chunks, the ones [ondataavailable] keeps. *)
Definition kept (chunks : list Blob) : list Blob :=
  filter (fun data => Nat.ltb 0 (List.length data)) chunks.

(** The recorder ref is set while recording and cleared while the
    recording is being finalized. *)
Definition recorder_ref_matches_state (a : App) : Prop :=
  match recordingState a with
  | recording => mediaRecorderRef a <> None
  | processing => mediaRecorderRef a = None
  | idle => True
  end.


(** The events that run [recorder.onstop], the only callback that sets a
    download link. *)
Definition is_stop_event (e : Event) : bool :=
  match e with
  | ev_stop _ => true
  | _ => false
  end.


(** A style [drawPoint] has a case for. *)
Definition known_style (s : string) : bool :=
  existsb (String.eqb s) (map fst TRAIL_STYLES).

(** A page that has something stored, and one without screen capture. *)
Definition stored_page : Browser :=
  set_storage (parses_to (JObject forty_members)) sample_page.

Definition page_without_capture : Browser :=
  {| storage := no_item; cursorTrailControls := None; objects_created := 0;
     has_getDisplayMedia := false; unsettled := 0; streams_created := 0;
     live_streams := []; active_recorders := []; drawn := [] |}.

(** A pool of three points, the middle one about to expire at fade speed
    55. *)
Definition sample_pool : list TrailPoint :=
  [ {| x := 1; y := 1; life := 0.5; seed := 0 |};
    {| x := 2; y := 2; life := 0.05; seed := 0 |};
    {| x := 3; y := 3; life := 1; seed := 0 |} ].

(** A component whose size is not a finite number, a key event with Ctrl
    held, and three chunks of a recording, the middle one empty. *)
Definition oversized : App :=
  setSettingsHydrated true (setTrailSize infinity initial_App).

Definition ctrl_t : KeyboardEvent :=
  {| metaKey := false; ctrlKey := true; altKey := false;
     target_tagName := "BODY"; key := "t" |}.

Definition sample_chunks : list Blob := [[1; 2]; []; [3]].

(** A recording of one chunk, up to the request to stop. *)
Definition stop_requested : list Event :=
  [ev_click_record; ev_granted starts; ev_dataavailable 0 [7];
   ev_click_record].

(** A second start while that recording is being finalized; its request is
    rejected after the first recorder has stopped. *)
Definition rejected_after_stop : list Event :=
  stop_requested ++
  [ev_click_record; ev_stop 0; ev_rejected (Some "Permission denied")].

(** A second start while a recording is being finalized; its request is
    granted before the first recorder has stopped. *)
Definition granted_before_stop : list Event :=
  record_then_stop ++ [ev_click_record; ev_granted starts; ev_stop 0].

(** * Properties *)

(** ** Proof tools *)

Ltac break_match :=
  match goal with
  | H : context [match ?t with _ => _ end] |- _ => destruct t eqn:?
  | |- context [match ?t with _ => _ end] => destruct t eqn:?
  end.

(** Project a field out of a chain of setters. *)
Ltac fields :=
  cbn [fst snd pointsRef mediaRecorderRef chunksRef screenStreamRef isActive
       trailStyle trailColor trailSize fadeSpeed activePresetId
       settingsHydrated obsReady recordingState recordingUrl recordingError
       set_pointsRef set_mediaRecorderRef set_chunksRef set_screenStreamRef
       setIsActive setTrailStyle setTrailColor setTrailSize setFadeSpeed
       setActivePresetId setSettingsHydrated setObsReady setRecordingState
       setRecordingUrl setRecordingError] in *.

Ltac inv_some :=
  repeat match goal with
  | H : Some ?u = Some ?v |- _ =>
      assert (u = v) by congruence; clear H; try subst v
  | H : None = Some _ |- _ => discriminate H
  | H : Some _ = None |- _ => discriminate H
  | H : (_, _) = (_, _) |- _ => inversion H; subst; clear H
  end.

(** Unfold the callbacks of the component down to the setters. *)
Ltac callbacks :=
  unfold click_record, host_call, invoke, handler, startRecording,
    stopRecording, startRecording_granted, startRecording_rejected,
    startRecording_catch, recorder_ondataavailable, recorder_onstop,
    applyPreset, click_toggle, click_style, click_color, change_size,
    change_fade, option_map in *.

(** ** Particle pool *)

Lemma render_loop_advance (Math_cos Math_sin : float -> float)
    (fadeSpeed : float) (options : DrawOptions) :
  forall points nextPoints calls,
    render_loop Math_cos Math_sin points fadeSpeed options nextPoints calls =
    (nextPoints ++ advance fadeSpeed points,
     calls ++ flat_map (fun p => drawPoint Math_cos Math_sin p options)
                       (advance fadeSpeed points)).
Proof.
  induction points as [|point rest IH]; intros nextPoints calls.
  - simpl. now rewrite !app_nil_r.
  - change (render_loop Math_cos Math_sin (point :: rest) fadeSpeed options
              nextPoints calls)
      with (if expired (decay fadeSpeed point)
            then render_loop Math_cos Math_sin rest fadeSpeed options
                   nextPoints calls
            else render_loop Math_cos Math_sin rest fadeSpeed options
                   (nextPoints ++ [decay fadeSpeed point])
                   (calls ++ drawPoint Math_cos Math_sin
                                (decay fadeSpeed point) options)).
    change (advance fadeSpeed (point :: rest))
      with (if negb (expired (decay fadeSpeed point))
            then decay fadeSpeed point :: advance fadeSpeed rest
            else advance fadeSpeed rest).
    destruct (expired (decay fadeSpeed point)); cbn [negb].
    + apply IH.
    + rewrite IH. cbn [flat_map]. now rewrite <- !app_assoc.
Qed.

(** The animation step, by the reference definition. *)
Lemma render_eq_advance (Math_cos Math_sin : float -> float)
    (canvas_width canvas_height : float) (points : list TrailPoint)
    (fadeSpeed : float) (options : DrawOptions) :
  render Math_cos Math_sin canvas_width canvas_height points fadeSpeed options
  = (advance fadeSpeed points,
     ctx_clearRect 0 0 canvas_width canvas_height ::
     flat_map (fun p => drawPoint Math_cos Math_sin p options)
              (advance fadeSpeed points)).
Proof.
  unfold render. rewrite render_loop_advance. reflexivity.
Qed.

Lemma advance_filter_map (fadeRate : float) (pool : list TrailPoint) :
  advance fadeRate pool =
  map (decay fadeRate)
      (filter (fun q => negb (JS.le (life q - fadeRate / 1000)%float 0)) pool).
Proof.
  unfold advance. induction pool as [|q pool IH]; [reflexivity|].
  cbn [map filter].
  change (expired (decay fadeRate q))
    with (JS.le (life q - fadeRate / 1000)%float 0).
  destruct (JS.le (life q - fadeRate / 1000)%float 0); cbn [negb map];
    now rewrite IH.
Qed.

(** C4. For every pool and fade speed, one animation step is [advance]:
    the life of every point goes down by [fadeSpeed / 1000]; a point is in
    the new pool exactly when it comes from a point of the old pool whose
    new life is not [<= 0], with position and seed unchanged; the
    survivors are in the order they had; and that ordered sequence is what
    the step draws, after clearing the canvas. *)
Theorem render_is_advance (Math_cos Math_sin : float -> float)
    (canvas_width canvas_height : float) (points : list TrailPoint)
    (fadeSpeed : float) (options : DrawOptions) :
  let step :=
    render Math_cos Math_sin canvas_width canvas_height points fadeSpeed
      options in
  let nextLife q := (life q - fadeSpeed / 1000)%float in
  fst step = advance fadeSpeed points /\
  fst step =
    map (fun q => {| x := x q; y := y q; life := nextLife q; seed := seed q |})
        (filter (fun q => negb (JS.le (nextLife q) 0)) points) /\
  (forall p, In p (fst step) <->
             exists q, In q points /\ JS.le (nextLife q) 0 = false /\
                       p = {| x := x q; y := y q; life := nextLife q;
                              seed := seed q |}) /\
  snd step =
    ctx_clearRect 0 0 canvas_width canvas_height ::
    flat_map (fun p => drawPoint Math_cos Math_sin p options) (fst step).
Proof.
  cbv zeta. rewrite render_eq_advance. cbn [fst snd].
  split; [reflexivity|]. split; [apply advance_filter_map|].
  split; [|reflexivity].
  intros p. rewrite advance_filter_map. rewrite in_map_iff. split.
  - intros (q & <- & Hq). apply filter_In in Hq. destruct Hq as [Hin Hq].
    apply negb_true_iff in Hq. exists q. repeat split; assumption.
  - intros (q & Hin & Hq & ->). exists q. split; [reflexivity|].
    apply filter_In. split; [exact Hin|]. now rewrite Hq.
Qed.

Lemma advance_length (fadeRate : float) (pool : list TrailPoint) :
  List.length (advance fadeRate pool) <= List.length pool.
Proof.
  unfold advance.
  etransitivity; [apply filter_length_le|]. now rewrite length_map.
Qed.

Lemma handleMouseMove_length (active : bool) (event : MouseEvent)
    (random : float) (points : list TrailPoint) :
  List.length points <= MAX_POINTS ->
  List.length (handleMouseMove active event random points) <= MAX_POINTS.
Proof.
  intros H. unfold handleMouseMove.
  destruct active; simpl; [|exact H].
  destruct (Nat.ltb MAX_POINTS _) eqn:E.
  - destruct points as [|p rest]; simpl in *.
    + unfold MAX_POINTS; lia.
    + rewrite length_app in *. simpl in *. lia.
  - apply Nat.ltb_ge in E. exact E.
Qed.

Lemma commit_app (before : App) (after : System) (controls : Controls) :
  fst (state (commit before after controls)) = fst after.
Proof.
  unfold commit. destruct after as [a b].
  destruct (RecordingState_eqb _ _); [reflexivity|].
  destruct (controls_effect _). reflexivity.
Qed.

Lemma mount_app (page : Browser) :
  fst (state (mount page)) = load_effect page initial_App.
Proof. reflexivity. Qed.

(** The load effect only calls the six settings setters. *)
Lemma restore_preserves (P : App -> Prop) (parsed : JSON) (a : App) :
  (forall v a, P a -> P (setIsActive v a)) ->
  (forall v a, P a -> P (setTrailStyle v a)) ->
  (forall v a, P a -> P (setTrailColor v a)) ->
  (forall v a, P a -> P (setTrailSize v a)) ->
  (forall v a, P a -> P (setFadeSpeed v a)) ->
  (forall v a, P a -> P (setActivePresetId v a)) ->
  P a -> P (restore parsed a).
Proof.
  intros H1 H2 H3 H4 H5 H6 H. unfold restore.
  assert (S1 : P (restore_isActive parsed a)).
  { unfold restore_isActive.
    destruct (property parsed "isActive") as [[]|]; auto. }
  assert (S2 : P (restore_trailStyle parsed (restore_isActive parsed a))).
  { unfold restore_trailStyle.
    destruct (property parsed "trailStyle") as [[]|]; auto. }
  revert S2. generalize (restore_trailStyle parsed (restore_isActive parsed a)).
  clear S1 H a. intros a H.
  assert (S3 : P (restore_trailColor parsed a)).
  { unfold restore_trailColor.
    destruct (property parsed "trailColor") as [[]|]; auto. }
  assert (S4 : P (restore_trailSize parsed (restore_trailColor parsed a))).
  { unfold restore_trailSize.
    destruct (property parsed "trailSize") as [[]|]; auto. }
  revert S4. generalize (restore_trailSize parsed (restore_trailColor parsed a)).
  clear S3 H a. intros a H.
  assert (S5 : P (restore_fadeSpeed parsed a)).
  { unfold restore_fadeSpeed.
    destruct (property parsed "fadeSpeed") as [[]|]; auto. }
  unfold restore_activePresetId.
  destruct (property parsed "activePresetId") as [[]|]; auto.
Qed.

Lemma load_effect_preserves (P : App -> Prop) (page : Browser) (a : App) :
  (forall v a, P a -> P (setIsActive v a)) ->
  (forall v a, P a -> P (setTrailStyle v a)) ->
  (forall v a, P a -> P (setTrailColor v a)) ->
  (forall v a, P a -> P (setTrailSize v a)) ->
  (forall v a, P a -> P (setFadeSpeed v a)) ->
  (forall v a, P a -> P (setActivePresetId v a)) ->
  (forall v a, P a -> P (setSettingsHydrated v a)) ->
  P a -> P (load_effect page a).
Proof.
  intros H1 H2 H3 H4 H5 H6 H7 H. unfold load_effect. apply H7.
  destruct (storage page) as [| | |v]; try exact H.
  destruct v; try exact H; now apply restore_preserves.
Qed.

(** *** Callbacks that leave the pool alone *)

Lemma startRecording_pool (s : System) :
  pointsRef (fst (startRecording s)) = pointsRef (fst s).
Proof.
  destruct s as [a b]. unfold startRecording.
  repeat break_match; reflexivity.
Qed.

Lemma stopRecording_pool (s : System) :
  pointsRef (fst (stopRecording s)) = pointsRef (fst s).
Proof.
  destruct s as [a b]. unfold stopRecording.
  repeat break_match; reflexivity.
Qed.

Lemma applyPreset_pool (preset : option Preset) (a : App) :
  pointsRef (applyPreset preset a) = pointsRef a.
Proof. destruct preset; reflexivity. Qed.

Lemma startRecording_catch_pool (message : option string) (s : System) :
  pointsRef (fst (startRecording_catch message s)) = pointsRef (fst s).
Proof.
  destruct s as [a b]. unfold startRecording_catch.
  cbn [screenStreamRef setRecordingError].
  destruct (screenStreamRef a); reflexivity.
Qed.

Lemma click_record_pool (s : System) :
  pointsRef (fst (click_record s)) = pointsRef (fst s).
Proof.
  unfold click_record.
  destruct (RecordingState_eqb _ _);
    [apply stopRecording_pool | apply startRecording_pool].
Qed.

Lemma handler_pool (event : KeyboardEvent) (s : System) :
  pointsRef (fst (snd (handler event s))) = pointsRef (fst s).
Proof.
  destruct s as [a b]. unfold handler.
  repeat match goal with
  | |- context [if ?c then _ else _] => destruct c
  | |- context [match List.find ?f ?l with _ => _ end] =>
      destruct (List.find f l)
  end; cbn [snd fst];
  rewrite ?startRecording_pool, ?stopRecording_pool, ?applyPreset_pool;
  reflexivity.
Qed.

Lemma invoke_pool (e : EntryPoint) (arg : string) (s : System) :
  pointsRef (fst (invoke e arg s)) = pointsRef (fst s).
Proof.
  destruct s as [a b], e; unfold invoke.
  - reflexivity.
  - destruct (List.find _ _); [apply applyPreset_pool | reflexivity].
  - apply startRecording_pool.
  - apply stopRecording_pool.
Qed.

Lemma dispatch_pool (Math_cos Math_sin : float -> float) (e : Event)
    (s s' : System) :
  dispatch Math_cos Math_sin e s = Some s' ->
  List.length (pointsRef (fst s)) <= MAX_POINTS ->
  List.length (pointsRef (fst s')) <= MAX_POINTS.
Proof.
  intros H Hlen. destruct s as [a b]. cbn [fst] in Hlen.
  destruct e; cbn [dispatch] in H.
  - inv_some. now apply handleMouseMove_length.
  - rewrite render_eq_advance in H. inv_some. cbn [fst set_pointsRef pointsRef].
    etransitivity; [apply advance_length | exact Hlen].
  - inv_some. exact Hlen.
  - inv_some. now rewrite handler_pool.
  - inv_some. exact Hlen.
  - destruct (nth_error TRAIL_STYLES index); cbn [option_map] in H; inv_some.
    exact Hlen.
  - destruct (nth_error COLOR_PRESETS index); cbn [option_map] in H; inv_some.
    exact Hlen.
  - destruct (nth_error PRESET_COMBOS index); cbn [option_map] in H; inv_some.
    cbn [fst]. now rewrite applyPreset_pool.
  - inv_some. exact Hlen.
  - inv_some. exact Hlen.
  - inv_some. now rewrite click_record_pool.
  - unfold host_call in H. cbn [snd] in H.
    destruct (cursorTrailControls b); [|discriminate].
    destruct (entry name0 (entries c)); inv_some. now rewrite invoke_pool.
  - unfold startRecording_granted in H.
    destruct (unsettled b); [discriminate|].
    destruct outcome; inv_some;
      rewrite ?startRecording_catch_pool; exact Hlen.
  - unfold startRecording_rejected in H.
    destruct (unsettled b); inv_some.
    rewrite startRecording_catch_pool. exact Hlen.
  - unfold recorder_ondataavailable in H.
    destruct (negb _); [discriminate|].
    destruct (Nat.ltb _ _); inv_some; exact Hlen.
  - unfold recorder_onstop in H.
    destruct (negb _); inv_some. exact Hlen.
Qed.

(** C3. Whatever happens to the mounted component (any sequence of pointer
    moves, frames, keys, clicks, host calls and capture events), the pool
    holds between 0 and [MAX_POINTS] = 48 points; and a pointer move on a
    pool that the new point would take beyond 48 drops the oldest point and
    keeps the others, in order, with the new point last. *)
Theorem pool_bounded (Math_cos Math_sin : float -> float) (m : Mounted) :
  reachable Math_cos Math_sin m ->
  let points := pointsRef (fst (state m)) in
  0 <= List.length points <= 48 /\
  forall event random,
    48 < List.length points + 1 ->
    handleMouseMove true event random points =
    tl points ++ [ {| x := clientX event; y := clientY event; life := 1;
                      seed := (random * JS.Math_PI * 2)%float |} ]
    /\ List.length (handleMouseMove true event random points) = 48.
Proof.
  intros Hreach.
  assert (Hlen : List.length (pointsRef (fst (state m))) <= MAX_POINTS).
  { induction Hreach as [page _ | m e m' _ IH Hstep].
    - rewrite mount_app.
      apply (load_effect_preserves
               (fun a => List.length (pointsRef a) <= MAX_POINTS));
        auto. unfold MAX_POINTS. cbn. lia.
    - unfold step in Hstep.
      destruct (dispatch Math_cos Math_sin e (state m)) as [after|] eqn:D;
        inv_some.
      rewrite commit_app. eapply dispatch_pool; eauto. }
  cbv zeta. unfold MAX_POINTS in Hlen. split; [lia|].
  intros event random Hfull.
  unfold handleMouseMove. cbn [negb].
  rewrite length_app. cbn [List.length].
  replace (Nat.ltb MAX_POINTS (List.length (pointsRef (fst (state m))) + 1))
    with true by (symmetry; apply Nat.ltb_lt; unfold MAX_POINTS; lia).
  destruct (pointsRef (fst (state m))) as [|oldest others].
  - cbn in Hfull. lia.
  - cbn [tl app List.length] in *. rewrite length_app. cbn. split; [reflexivity|lia].
Qed.

(** *** Lifetime of a point *)

Lemma frames_nil (Math_cos Math_sin : float -> float) (n : nat)
    (w h fadeSpeed : float) (options : DrawOptions) :
  frames Math_cos Math_sin n w h fadeSpeed options [] = [].
Proof. induction n as [|n IH]; [reflexivity|]. cbn [frames]. exact IH. Qed.

Lemma frames_alive (Math_cos Math_sin : float -> float) (n : nat)
    (w h fadeSpeed : float) (options : DrawOptions) (p : TrailPoint) :
  expired (decay fadeSpeed p) = false ->
  frames Math_cos Math_sin (S n) w h fadeSpeed options [p] =
  frames Math_cos Math_sin n w h fadeSpeed options [decay fadeSpeed p].
Proof.
  intros E. cbn [frames]. rewrite render_eq_advance. cbn [fst].
  unfold advance. cbn [map filter]. rewrite E. reflexivity.
Qed.

Lemma frames_expired (Math_cos Math_sin : float -> float) (n : nat)
    (w h fadeSpeed : float) (options : DrawOptions) (p : TrailPoint) :
  expired (decay fadeSpeed p) = true ->
  frames Math_cos Math_sin (S n) w h fadeSpeed options [p] = [].
Proof.
  intros E. cbn [frames]. rewrite render_eq_advance. cbn [fst].
  unfold advance. cbn [map filter]. rewrite E. apply frames_nil.
Qed.

Ltac age :=
  repeat (rewrite frames_alive by (vm_compute; reflexivity));
  try (rewrite frames_expired by (vm_compute; reflexivity)).

(** C5. With [fadeSpeed] 55, the point a pointer move creates (life 1) is
    still in the pool, with life [> 0], after any [k <= 18] frames; its
    life after the 18th frame less [55 / 1000] is [<= 0], so the 19th
    frame, and no earlier one, removes it. *)
Theorem point_lives_18_frames (Math_cos Math_sin : float -> float)
    (canvas_width canvas_height : float) (options : DrawOptions)
    (event : MouseEvent) (random : float) (k : nat) :
  k <= 18 ->
  let created := handleMouseMove true event random [] in
  let after n :=
    frames Math_cos Math_sin n canvas_width canvas_height 55 options created in
  (exists p, after k = [p] /\ JS.gt (life p) 0 = true) /\
  (exists p, after 18 = [p] /\ JS.le (life p - 55 / 1000)%float 0 = true) /\
  after 19 = [].
Proof.
  intros Hk. cbv zeta.
  change (handleMouseMove true event random [])
    with [ {| x := clientX event; y := clientY event; life := 1;
              seed := (random * JS.Math_PI * 2)%float |} ].
  split; [|split].
  - do 19 (destruct k as [|k];
           [age; eexists; split; [reflexivity | vm_compute; reflexivity]|]).
    lia.
  - age. eexists; split; [reflexivity | vm_compute; reflexivity].
  - age. reflexivity.
Qed.

(** ** Style renderer *)

Lemma Prim2SF_zero : Prim2SF 0%float = S754_zero false.
Proof. reflexivity. Qed.

Lemma SFcompare_finite_refl (s : bool) (m : positive) (e : Z) :
  SFcompare (S754_finite s m e) (S754_finite s m e) = Some Eq.
Proof.
  simpl. destruct s; rewrite Z.compare_refl, ?Pos.compare_refl; reflexivity.
Qed.

(** The clamp [Math.max(point.life, 0)] does nothing to a life that passed
    the test [nextLife <= 0] of the animation step. *)
Lemma Math_max_alive (l : float) :
  JS.le l 0 = false -> JS.Math_max l 0 = l.
Proof.
  unfold JS.le, JS.Math_max, is_nan.
  rewrite leb_spec, !eqb_spec, !ltb_spec, Prim2SF_zero.
  intros H.
  destruct (Prim2SF l) as [s | s | | s m e] eqn:E.
  - destruct s; discriminate H.
  - destruct s; [discriminate H|]. reflexivity.
  - simpl. rewrite <- (SF2Prim_Prim2SF l), E. reflexivity.
  - destruct s; [discriminate H|].
    unfold SFeqb. rewrite SFcompare_finite_refl. reflexivity.
Qed.

Lemma advance_alive (fadeRate : float) (pool : list TrailPoint)
    (p : TrailPoint) :
  In p (advance fadeRate pool) -> JS.le (life p) 0 = false.
Proof.
  unfold advance. intros H. apply filter_In in H. destruct H as [_ H].
  apply negb_true_iff in H. exact H.
Qed.

Lemma flat_map_ext_In (A B : Type) (f g : A -> list B) (l : list A) :
  (forall a, In a l -> f a = g a) -> flat_map f l = flat_map g l.
Proof.
  induction l as [|a l IH]; intros H; [reflexivity|].
  cbn [flat_map]. rewrite (H a (or_introl eq_refl)), IH; [reflexivity|].
  intros a' Ha'. apply H. now right.
Qed.

(** C9. For any colour and size, the star style draws every point as one
    filled closed polygon of exactly ten vertices around the point: outer
    vertices at [radius = size * life] and inner vertices at
    [0.45 * radius], alternating outer, inner, ..., the i-th outer one at
    angle [2 pi i / 5 - pi / 2] and the inner one [pi / 5] further, so that
    the first outer vertex is at angle [-pi/2].  This holds of [drawPoint]
    for every point whose life is not [<= 0], hence of every point a frame
    draws, whatever the pool and the fade speed. *)
Theorem star_is_closed_decagon (Math_cos Math_sin : float -> float)
    (color : string) (size : float) :
  let options := {| style := "star"; color := color; size := size |} in
  let radius point := (size * life point)%float in
  let angle i := (JS.Math_PI * 2 * i / 5 - JS.Math_PI / 2)%float in
  let at_polar point theta distance :=
    ((x point + Math_cos theta * distance)%float,
     (y point + Math_sin theta * distance)%float) in
  let outer point i := at_polar point (angle i) (radius point) in
  let inner point i :=
    at_polar point (angle i + JS.Math_PI / 5)%float
      (radius point * 0.45)%float in
  let vertices point :=
    flat_map (fun i => [outer point i; inner point i])
             [0; 1; 2; 3; 4]%float in
  let star point :=
    [ctx_save;
     ctx_fillStyle (paint_color (hexToRgba color (life point)))] ++
    closed_polygon (vertices point) ++ [ctx_fill; ctx_restore] in
  (forall point,
     JS.le (life point) 0 = false ->
     drawPoint Math_cos Math_sin point options = star point) /\
  (forall canvas_width canvas_height points fadeSpeed,
     snd (render Math_cos Math_sin canvas_width canvas_height points
            fadeSpeed options) =
     ctx_clearRect 0 0 canvas_width canvas_height ::
     flat_map star (advance fadeSpeed points)) /\
  (forall point, List.length (vertices point) = 10) /\
  angle 0%float = (- (JS.Math_PI / 2))%float.
Proof.
  cbv zeta.
  assert (Hdraw : forall point,
            JS.le (life point) 0 = false ->
            drawPoint Math_cos Math_sin point
              {| style := "star"; color := color; size := size |} =
            [ctx_save;
             ctx_fillStyle (paint_color (hexToRgba color (life point)))] ++
            closed_polygon
              (flat_map
                 (fun i =>
                    [((x point + Math_cos
                         (JS.Math_PI * 2 * i / 5 - JS.Math_PI / 2)
                         * (size * life point))%float,
                      (y point + Math_sin
                         (JS.Math_PI * 2 * i / 5 - JS.Math_PI / 2)
                         * (size * life point))%float);
                     ((x point + Math_cos
                         (JS.Math_PI * 2 * i / 5 - JS.Math_PI / 2
                          + JS.Math_PI / 5)
                         * (size * life point * 0.45))%float,
                      (y point + Math_sin
                         (JS.Math_PI * 2 * i / 5 - JS.Math_PI / 2
                          + JS.Math_PI / 5)
                         * (size * life point * 0.45))%float)])
                 [0; 1; 2; 3; 4]%float) ++
            [ctx_fill; ctx_restore]).
  { intros point Halive. unfold drawPoint.
    rewrite (Math_max_alive _ Halive). vm_compute. reflexivity. }
  split; [exact Hdraw|]. split; [|split].
  - intros w h points fadeSpeed. rewrite render_eq_advance. cbn [snd].
    f_equal. apply flat_map_ext_In. intros p Hp.
    apply Hdraw. exact (advance_alive _ _ _ Hp).
  - intros point. reflexivity.
  - vm_compute. reflexivity.
Qed.

(** ** Settings persistence *)

Lemma restore_isActive_eq (parsed : JSON) (a : App) :
  restore_isActive parsed a =
  setIsActive match property parsed "isActive" with
              | Some (JBool v) => v | _ => isActive a end a.
Proof.
  unfold restore_isActive.
  destruct a; destruct (property parsed "isActive") as [[]|]; reflexivity.
Qed.

Lemma restore_trailStyle_eq (parsed : JSON) (a : App) :
  restore_trailStyle parsed a =
  setTrailStyle match property parsed "trailStyle" with
                | Some (JString v) => v | _ => trailStyle a end a.
Proof.
  unfold restore_trailStyle.
  destruct a; destruct (property parsed "trailStyle") as [[]|]; reflexivity.
Qed.

Lemma restore_trailColor_eq (parsed : JSON) (a : App) :
  restore_trailColor parsed a =
  setTrailColor match property parsed "trailColor" with
                | Some (JString v) => v | _ => trailColor a end a.
Proof.
  unfold restore_trailColor.
  destruct a; destruct (property parsed "trailColor") as [[]|]; reflexivity.
Qed.

Lemma restore_trailSize_eq (parsed : JSON) (a : App) :
  restore_trailSize parsed a =
  setTrailSize match property parsed "trailSize" with
               | Some (JNumber v) => v | _ => trailSize a end a.
Proof.
  unfold restore_trailSize.
  destruct a; destruct (property parsed "trailSize") as [[]|]; reflexivity.
Qed.

Lemma restore_fadeSpeed_eq (parsed : JSON) (a : App) :
  restore_fadeSpeed parsed a =
  setFadeSpeed match property parsed "fadeSpeed" with
               | Some (JNumber v) => v | _ => fadeSpeed a end a.
Proof.
  unfold restore_fadeSpeed.
  destruct a; destruct (property parsed "fadeSpeed") as [[]|]; reflexivity.
Qed.

Lemma restore_activePresetId_eq (parsed : JSON) (a : App) :
  restore_activePresetId parsed a =
  setActivePresetId match property parsed "activePresetId" with
                    | Some (JString v) => Some v | _ => activePresetId a end a.
Proof.
  unfold restore_activePresetId.
  destruct a; destruct (property parsed "activePresetId") as [[]|];
    reflexivity.
Qed.

(** What the load effect leaves in each setting, by the member of that
    name alone. *)
Lemma restore_fields (parsed : JSON) (a : App) :
  let loaded := restore parsed a in
  isActive loaded =
    match property parsed "isActive" with
    | Some (JBool v) => v | _ => isActive a end /\
  trailStyle loaded =
    match property parsed "trailStyle" with
    | Some (JString v) => v | _ => trailStyle a end /\
  trailColor loaded =
    match property parsed "trailColor" with
    | Some (JString v) => v | _ => trailColor a end /\
  trailSize loaded =
    match property parsed "trailSize" with
    | Some (JNumber v) => v | _ => trailSize a end /\
  fadeSpeed loaded =
    match property parsed "fadeSpeed" with
    | Some (JNumber v) => v | _ => fadeSpeed a end /\
  activePresetId loaded =
    match property parsed "activePresetId" with
    | Some (JString v) => Some v | _ => activePresetId a end.
Proof.
  cbv zeta. unfold restore.
  rewrite restore_activePresetId_eq; fields.
  rewrite restore_fadeSpeed_eq; fields.
  rewrite restore_trailSize_eq; fields.
  rewrite restore_trailColor_eq; fields.
  rewrite restore_trailStyle_eq; fields.
  rewrite restore_isActive_eq; fields.
  repeat split; reflexivity.
Qed.

(** C7. Saving the settings [{isActive: false, trailStyle: "glow",
    trailColor: "#3B82F6", trailSize: 40, fadeSpeed: 30, activePresetId:
    null}] and loading them in a fresh instance gives those six values back;
    and whatever is stored, each setting is loaded from the member of its
    name when that member has the setting's type, and keeps its initial
    value otherwise, independently of every other member. *)
Theorem settings_round_trip_and_fallback (page : Browser) :
  (let loaded := load_effect (save_effect example_settings page) initial_App in
   isActive loaded = false /\ trailStyle loaded = "glow" /\
   trailColor loaded = "#3B82F6" /\ trailSize loaded = 40%float /\
   fadeSpeed loaded = 30%float /\ activePresetId loaded = None) /\
  (let loaded := load_effect page initial_App in
   let member key :=
     match storage page with
     | parses_to (JObject members) => get_member key members
     | _ => None
     end in
   isActive loaded =
     match member "isActive" with Some (JBool v) => v | _ => true end /\
   trailStyle loaded =
     match member "trailStyle" with
     | Some (JString v) => v | _ => "gradient" end /\
   trailColor loaded =
     match member "trailColor" with
     | Some (JString v) => v | _ => "#8B5CF6" end /\
   trailSize loaded =
     match member "trailSize" with
     | Some (JNumber v) => v | _ => 22%float end /\
   fadeSpeed loaded =
     match member "fadeSpeed" with
     | Some (JNumber v) => v | _ => 55%float end /\
   activePresetId loaded =
     match member "activePresetId" with
     | Some (JString v) => Some v | _ => None end).
Proof.
  split.
  - vm_compute. repeat split; reflexivity.
  - cbv zeta. unfold load_effect.
    destruct (storage page) as [| | |parsed];
      try (repeat split; reflexivity).
    destruct parsed; try (repeat split; reflexivity).
    exact (restore_fields (JObject members) initial_App).
Qed.

(** The design's example: a stored [trailSize] of ["forty"] leaves the
    size at its default, 22, and the other members load. *)
Example forty_falls_back :
  let loaded :=
    load_effect (set_storage (parses_to (JObject forty_members)) sample_page)
      initial_App in
  trailSize loaded = 22%float /\ isActive loaded = false /\
  trailStyle loaded = "glow" /\ trailColor loaded = "#3B82F6" /\
  fadeSpeed loaded = 30%float /\ activePresetId loaded = None.
Proof. vm_compute. repeat split; reflexivity. Qed.

(** ** Presets, manual changes and the toggle *)

Lemma handler_handled (event : KeyboardEvent) (s : System) :
  handled event = true ->
  handler event s =
  let (a, b) := s in
  let lowered := toLowerCase (key event) in
  if String.eqb lowered "t" then
    (true, (setIsActive (negb (isActive a)) a, b))
  else if String.eqb lowered "r" then
    (true,
     if RecordingState_eqb (recordingState a) recording
     then stopRecording s else startRecording s)
  else if String.eqb (key event) "[" then
    (true,
     (setActivePresetId None
        (setTrailSize (JS.Math_max 12 (trailSize a - 2)%float) a), b))
  else if String.eqb (key event) "]" then
    (true,
     (setActivePresetId None
        (setTrailSize (JS.Math_min 60 (trailSize a + 2)%float) a), b))
  else
    match List.find (fun combo => String.eqb (shortcut combo) (key event))
                    PRESET_COMBOS with
    | Some preset => (true, (applyPreset (Some preset) a, b))
    | None => (false, s)
    end.
Proof.
  unfold handled, handler. destruct s as [a b]. intros H.
  apply andb_true_iff in H. destruct H as [H1 H2].
  apply negb_true_iff in H1. apply negb_true_iff in H2.
  rewrite H1, H2. reflexivity.
Qed.

(** C6. Applying a preset sets style, colour, size and fade speed to the
    preset's values and the active preset id to the preset's id, in one
    transition (also through its shortcut digit); every manual change of
    style, colour or size (panel buttons, size slider, the two bracket
    keys) leaves the active preset id null; toggling the active flag (key
    [t], the panel button, the host's toggle) leaves the active preset id as
    it was. *)
Theorem preset_sets_manual_clears_toggle_keeps (a : App) (b : Browser)
    (preset : Preset) (event : KeyboardEvent) (arg : string) :
  handled event = true ->
  (let a' := applyPreset (Some preset) a in
   trailStyle a' = cfg_style (config preset) /\
   trailColor a' = cfg_color (config preset) /\
   trailSize a' = cfg_size (config preset) /\
   fadeSpeed a' = cfg_fade (config preset) /\
   activePresetId a' = Some (id preset)) /\
  (In preset PRESET_COMBOS -> key event = shortcut preset ->
   snd (handler event (a, b)) = (applyPreset (Some preset) a, b)) /\
  (forall v, trailStyle (click_style v a) = v /\
             activePresetId (click_style v a) = None) /\
  (forall v, trailColor (click_color v a) = v /\
             activePresetId (click_color v a) = None) /\
  (forall v, trailSize (change_size v a) = v /\
             activePresetId (change_size v a) = None) /\
  (key event = "[" ->
   let a' := fst (snd (handler event (a, b))) in
   trailSize a' = JS.Math_max 12 (trailSize a - 2)%float /\
   activePresetId a' = None) /\
  (key event = "]" ->
   let a' := fst (snd (handler event (a, b))) in
   trailSize a' = JS.Math_min 60 (trailSize a + 2)%float /\
   activePresetId a' = None) /\
  (toLowerCase (key event) = "t" ->
   let a' := fst (snd (handler event (a, b))) in
   isActive a' = negb (isActive a) /\
   activePresetId a' = activePresetId a) /\
  (isActive (click_toggle a) = negb (isActive a) /\
   activePresetId (click_toggle a) = activePresetId a) /\
  (let a' := fst (invoke call_toggle arg (a, b)) in
   isActive a' = negb (isActive a) /\
   activePresetId a' = activePresetId a).
Proof.
  intros Hh. rewrite (handler_handled _ _ Hh).
  repeat match goal with |- _ /\ _ => split end;
    try (intros; cbv zeta; repeat split; reflexivity).
  - intros Hin Hkey. rewrite Hkey.
    destruct Hin as [<- | [<- | [<- | []]]]; reflexivity.
  - intros ->. split; reflexivity.
  - intros ->. split; reflexivity.
  - intros ->. split; reflexivity.
Qed.

(** ** Recording controller *)

Lemma run_reachable (Math_cos Math_sin : float -> float) :
  forall events m m',
    reachable Math_cos Math_sin m ->
    run Math_cos Math_sin events m = Some m' ->
    reachable Math_cos Math_sin m'.
Proof.
  induction events as [|e rest IH]; intros m m' Hm Hrun; cbn [run] in Hrun.
  - inv_some. exact Hm.
  - destruct (step Math_cos Math_sin e m) as [m1|] eqn:E; [|discriminate].
    eapply IH; [|exact Hrun]. eapply reach_step; eauto.
Qed.

Lemma sample_page_fresh : fresh_page sample_page.
Proof. split; reflexivity. Qed.

Lemma sample_after_reachable (events : list Event) :
  reachable sample_cos sample_sin (sample_after events).
Proof.
  unfold sample_after.
  destruct (run sample_cos sample_sin events (mount sample_page)) eqn:E.
  - eapply run_reachable; [|exact E]. apply reach_mount, sample_page_fresh.
  - apply reach_mount, sample_page_fresh.
Qed.













(** The guards of the two callbacks.  [startRecording] returns at once,
    changing nothing, in state ['recording'], and [stopRecording] changes
    nothing in every state other than ['recording'].  In the other states
    [startRecording] goes on: without the capture capability it only sets
    the error message, with it it clears the error message and the link and
    requests a capture. *)
Lemma guards_of_start_and_stop (s : System) :
  (recordingState (fst s) = recording -> startRecording s = s) /\
  (recordingState (fst s) <> recording -> stopRecording s = s) /\
  (recordingState (fst s) <> recording ->
   has_getDisplayMedia (snd s) = false ->
   startRecording s =
   (setRecordingError "Screen capture is not supported in this browser yet."
      (fst s), snd s)) /\
  (recordingState (fst s) <> recording ->
   has_getDisplayMedia (snd s) = true ->
   startRecording s =
   (setRecordingUrl None (setRecordingError "" (fst s)),
    set_unsettled (S (unsettled (snd s))) (snd s))).
Proof.
  destruct s as [a b]. unfold startRecording, stopRecording. cbn [fst snd].
  split; [|split; [|split]].
  - intros ->. reflexivity.
  - intros H. destruct (recordingState a); try reflexivity. contradiction.
  - intros H ->. destruct (recordingState a); try reflexivity. contradiction.
  - intros H ->. destruct (recordingState a); try reflexivity. contradiction.
Qed.

(** C2. The component at the input where it departs from the claim:
    [startRecording] called in state ['processing'], after a recording was
    started, granted and asked to stop.  The call is not a no-op: it clears
    the error message and the link and requests a capture.  When that
    request is granted before the first recorder has stopped, and the first
    recorder's ['stop'] then arrives, the component is in state ['idle']
    holding no stream, while the second stream still has live tracks and
    the second recorder is still running; [stopRecording] changes nothing
    there, so the mounted component has no way left to end that capture. *)
Theorem start_while_processing_leaks :
  let s := state (sample_after record_then_stop) in
  let later := state (sample_after granted_before_stop) in
  run sample_cos sample_sin granted_before_stop (mount sample_page) =
    Some (sample_after granted_before_stop) /\
  recordingState (fst s) = processing /\
  has_getDisplayMedia (snd s) = true /\
  startRecording s =
    (setRecordingUrl None (setRecordingError "" (fst s)),
     set_unsettled 1 (snd s)) /\
  startRecording s <> s /\
  recordingState (fst later) = idle /\
  screenStreamRef (fst later) = None /\
  mediaRecorderRef (fst later) = Some 1 /\
  live_streams (snd later) = [1] /\
  active_recorders (snd later) = [1] /\
  stopRecording later = later.
Proof.
  cbv zeta.
  split; [vm_compute; reflexivity|].
  split; [vm_compute; reflexivity|].
  split; [vm_compute; reflexivity|].
  split; [vm_compute; reflexivity|].
  split.
  - intros H.
    apply (f_equal (fun s : System => unsettled (snd s))) in H.
    vm_compute in H. discriminate H.
  - vm_compute. repeat split; reflexivity.
Qed.

Lemma startRecording_link (s : System) :
  recordingUrl (fst s) = None -> recordingUrl (fst (startRecording s)) = None.
Proof.
  destruct s as [a b]. unfold startRecording. intros H.
  repeat break_match; cbn [fst]; fields; auto.
Qed.

Lemma stopRecording_link (s : System) :
  recordingUrl (fst (stopRecording s)) = recordingUrl (fst s).
Proof.
  destruct s as [a b]. unfold stopRecording.
  repeat break_match; cbn [fst]; fields; reflexivity.
Qed.

Lemma startRecording_catch_link (message : option string) (s : System) :
  recordingUrl (fst (startRecording_catch message s)) = recordingUrl (fst s).
Proof.
  destruct s as [a b]. unfold startRecording_catch. fields.
  destruct (screenStreamRef a); reflexivity.
Qed.

Lemma applyPreset_link (preset : option Preset) (a : App) :
  recordingUrl (applyPreset preset a) = recordingUrl a.
Proof. destruct preset; reflexivity. Qed.

Lemma handler_link (event : KeyboardEvent) (s : System) :
  recordingUrl (fst s) = None ->
  recordingUrl (fst (snd (handler event s))) = None.
Proof.
  intros H. destruct s as [a b]. unfold handler.
  repeat match goal with
  | |- context [if ?c then _ else _] => destruct c
  | |- context [match List.find ?f ?l with _ => _ end] =>
      destruct (List.find f l)
  end; cbn [snd fst]; try exact H;
    try (rewrite applyPreset_link; exact H);
    try (rewrite stopRecording_link; exact H);
    try (apply startRecording_link; exact H).
Qed.

(** Only [recorder.onstop] sets a download link: every other event leaves a
    cleared link cleared. *)
Lemma dispatch_link (Math_cos Math_sin : float -> float) (e : Event)
    (s s' : System) :
  is_stop_event e = false ->
  dispatch Math_cos Math_sin e s = Some s' ->
  recordingUrl (fst s) = None -> recordingUrl (fst s') = None.
Proof.
  intros He D H. destruct s as [a b]. cbn [fst] in H.
  destruct e; cbn [dispatch] in D; cbn [is_stop_event] in He.
  - inv_some. exact H.
  - rewrite render_eq_advance in D. inv_some. exact H.
  - inv_some. exact H.
  - inv_some. now apply handler_link.
  - inv_some. exact H.
  - destruct (nth_error TRAIL_STYLES index); cbn [option_map] in D; inv_some.
    exact H.
  - destruct (nth_error COLOR_PRESETS index); cbn [option_map] in D; inv_some.
    exact H.
  - destruct (nth_error PRESET_COMBOS index); cbn [option_map] in D; inv_some.
    cbn [fst]. rewrite applyPreset_link. exact H.
  - inv_some. exact H.
  - inv_some. exact H.
  - inv_some. unfold click_record. cbn [fst].
    destruct (RecordingState_eqb _ _).
    + rewrite stopRecording_link. exact H.
    + apply startRecording_link. exact H.
  - unfold host_call in D. cbn [snd] in D.
    destruct (cursorTrailControls b); [|discriminate].
    destruct (entry name0 (entries c)) as [ep|]; inv_some.
    destruct ep; unfold invoke.
    + exact H.
    + destruct (List.find _ _); cbn [fst];
        [rewrite applyPreset_link|]; exact H.
    + apply startRecording_link. exact H.
    + rewrite stopRecording_link. exact H.
  - unfold startRecording_granted in D.
    destruct (unsettled b); [discriminate|].
    destruct outcome; inv_some.
    + rewrite startRecording_catch_link. exact H.
    + rewrite startRecording_catch_link. exact H.
    + exact H.
  - unfold startRecording_rejected in D.
    destruct (unsettled b); inv_some.
    rewrite startRecording_catch_link. exact H.
  - unfold recorder_ondataavailable in D.
    destruct (negb _); [discriminate|].
    destruct (Nat.ltb _ _); inv_some; exact H.
  - discriminate He.
Qed.

Lemma run_link (Math_cos Math_sin : float -> float) :
  forall events m m',
    existsb is_stop_event events = false ->
    run Math_cos Math_sin events m = Some m' ->
    recordingUrl (fst (state m)) = None ->
    recordingUrl (fst (state m')) = None.
Proof.
  induction events as [|e rest IH]; intros m m' Hev Hrun H; cbn [run] in Hrun.
  - inv_some. exact H.
  - cbn [existsb] in Hev. apply orb_false_iff in Hev. destruct Hev as [He Hrest].
    unfold step in Hrun.
    destruct (dispatch Math_cos Math_sin e (state m)) as [after|] eqn:D;
      [|discriminate].
    apply (IH _ _ Hrest Hrun). rewrite commit_app.
    exact (dispatch_link _ _ _ _ _ He D H).
Qed.

(** C10 (as the component has it). Called outside state ['recording'] on a
    browser that can capture the screen, [startRecording] clears the error
    message and the link to the last recording before the capture is
    requested (no stream has been handed out yet, the request is pending).
    The link then stays cleared whatever happens next, a failure of the
    attempt included (rejection of the request, or an exception after the
    grant), for as long as no recorder's ['stop'] handler runs: that
    handler alone sets a link. *)
Theorem start_discards_last_recording (Math_cos Math_sin : float -> float)
    (s : System) (controls : Controls) (message : option string)
    (events : list Event) (m' : Mounted) :
  recordingState (fst s) <> recording ->
  has_getDisplayMedia (snd s) = true ->
  existsb is_stop_event events = false ->
  run Math_cos Math_sin events (commit (fst s) (startRecording s) controls)
    = Some m' ->
  let s1 := startRecording s in
  recordingError (fst s1) = "" /\
  recordingUrl (fst s1) = None /\
  unsettled (snd s1) = S (unsettled (snd s)) /\
  streams_created (snd s1) = streams_created (snd s) /\
  screenStreamRef (fst s1) = screenStreamRef (fst s) /\
  recordingUrl (fst (state m')) = None /\
  (exists s2, startRecording_rejected message s1 = Some s2 /\
              recordingUrl (fst s2) = None /\
              recordingState (fst s2) = idle) /\
  (exists s2, startRecording_granted (constructor_throws message) s1 = Some s2
              /\ recordingUrl (fst s2) = None /\
              recordingState (fst s2) = idle) /\
  (exists s2, startRecording_granted (start_throws message) s1 = Some s2 /\
              recordingUrl (fst s2) = None /\
              recordingState (fst s2) = idle).
Proof.
  intros Hstate Hcap Hev Hrun. cbv zeta.
  assert (Hlink : recordingUrl (fst (state m')) = None).
  { apply (run_link _ _ _ _ _ Hev Hrun). rewrite commit_app.
    destruct s as [a b]. cbn [fst snd] in *. unfold startRecording.
    rewrite Hcap. cbn [negb].
    destruct (recordingState a); try reflexivity. contradiction. }
  clear Hrun Hev.
  destruct s as [a b]. cbn [fst snd] in *.
  unfold startRecording. rewrite Hcap. cbn [negb].
  replace (RecordingState_eqb (recordingState a) recording) with false
    by (destruct (recordingState a); try reflexivity; contradiction).
  fields.
  repeat match goal with |- _ /\ _ => split end; try reflexivity.
  - exact Hlink.
  - unfold startRecording_rejected, startRecording_catch. fields.
    eexists. split; [reflexivity|].
    destruct (screenStreamRef a); split; reflexivity.
  - unfold startRecording_granted, startRecording_catch. fields.
    eexists. split; [reflexivity|].
    destruct (screenStreamRef a); split; reflexivity.
  - unfold startRecording_granted, startRecording_catch. fields.
    eexists. split; [reflexivity|]. split; reflexivity.
Qed.

(** C10 as claimed fails when a recording is finalized between the start
    and its failure.  [startRecording] is called in state ['processing'] and
    clears the link; the first recorder's ['stop'] handler then sets the
    link to the recording it has finalized; the request is rejected: the
    attempt has failed, the state is ['idle'], and the link of the last
    recording is on show next to the error message. *)
Lemma failed_start_shows_link :
  let before := state (sample_after stop_requested) in
  let started := state (sample_after (stop_requested ++ [ev_click_record])) in
  let failed := state (sample_after rejected_after_stop) in
  run sample_cos sample_sin rejected_after_stop (mount sample_page) =
    Some (sample_after rejected_after_stop) /\
  recordingState (fst before) = processing /\
  recordingState (fst before) <> recording /\
  has_getDisplayMedia (snd before) = true /\
  fst started = fst (startRecording before) /\
  recordingUrl (fst started) = None /\
  recordingState (fst failed) = idle /\
  recordingError (fst failed) = "Permission denied" /\
  recordingUrl (fst failed) = Some (createObjectURL [7]) /\
  recordingUrl (fst failed) <> None.
Proof.
  cbv zeta.
  split; [vm_compute; reflexivity|].
  split; [vm_compute; reflexivity|].
  split; [vm_compute; discriminate|].
  split; [vm_compute; reflexivity|].
  split; [vm_compute; reflexivity|].
  split; [vm_compute; reflexivity|].
  split; [vm_compute; reflexivity|].
  split; [vm_compute; reflexivity|].
  split; [vm_compute; reflexivity|].
  vm_compute. discriminate.
Qed.

(** ** Control surface *)

(** C8 (as the component has it). The control-surface effect publishes an
    object whose own properties are exactly [toggle], [applyPreset],
    [startRecording] and [stopRecording]; the cleanup of the effect deletes
    [window.cursorTrailControls] when it still is the object this run of the
    effect installed, and leaves it alone when it is any other object, in
    particular the one a newer instance has installed since. *)
Theorem control_surface_entries_and_guarded_cleanup (b : Browser)
    (current : Controls) (b' : Browser) :
  let mine := snd (controls_effect b) in
  let b1 := fst (controls_effect b) in
  let newer := snd (controls_effect b1) in
  let b2 := fst (controls_effect b1) in
  cursorTrailControls b' = Some current ->
  ident current <> ident mine ->
  cursorTrailControls b1 = Some mine /\
  map fst (entries mine) =
    ["toggle"; "applyPreset"; "startRecording"; "stopRecording"] /\
  entries mine =
    [("toggle", call_toggle); ("applyPreset", call_applyPreset);
     ("startRecording", call_startRecording);
     ("stopRecording", call_stopRecording)] /\
  cursorTrailControls (controls_cleanup mine b1) = None /\
  cursorTrailControls b2 = Some newer /\
  controls_cleanup mine b2 = b2 /\
  controls_cleanup mine b' = b'.
Proof.
  cbv zeta. intros Hcur Hother.
  repeat match goal with |- _ /\ _ => split end; try reflexivity.
  - unfold controls_cleanup, controls_effect.
    cbn [fst snd cursorTrailControls set_cursorTrailControls ident].
    now rewrite Nat.eqb_refl.
  - unfold controls_cleanup, controls_effect.
    cbn [fst snd cursorTrailControls set_cursorTrailControls
         set_objects_created objects_created ident].
    replace (Nat.eqb (S (objects_created b)) (objects_created b)) with false
      by (symmetry; apply Nat.eqb_neq; lia).
    reflexivity.
  - unfold controls_cleanup. rewrite Hcur.
    apply Nat.eqb_neq in Hother. now rewrite Hother.
Qed.

(** C8 as claimed fails on the first entry point's name: the published
    object has no [toggleActive] property (the property is [toggle]), so a
    host calling [toggleActive] finds nothing to call. *)
Lemma no_toggleActive_entry :
  let b := fst (controls_effect sample_page) in
  let controls := snd (controls_effect sample_page) in
  cursorTrailControls b = Some controls /\
  entry "toggleActive" (entries controls) = None /\
  host_call "toggleActive" "" (initial_App, b) = None /\
  map fst (entries controls) <>
    ["toggleActive"; "applyPreset"; "startRecording"; "stopRecording"].
Proof.
  cbv zeta. repeat split; try reflexivity.
  vm_compute. discriminate.
Qed.

(** ** The theorems at sample inputs *)


Lemma pool_bounded_witness :
  reachable sample_cos sample_sin (sample_after (burst 48)) /\
  48 < List.length (pointsRef (fst (state (sample_after (burst 48))))) + 1 /\
  List.length
    (handleMouseMove true sample_event 0.5%float
       (pointsRef (fst (state (sample_after (burst 48)))))) = 48.
Proof.
  assert (F : 48 < List.length
                     (pointsRef (fst (state (sample_after (burst 48))))) + 1)
    by (vm_compute; lia).
  split; [apply sample_after_reachable|]. split; [exact F|].
  exact (proj2 (proj2 (pool_bounded sample_cos sample_sin
                         (sample_after (burst 48))
                         (sample_after_reachable (burst 48)))
                  sample_event 0.5%float F)).
Defined.

Lemma point_lives_18_frames_witness :
  18 <= 18 /\
  frames sample_cos sample_sin 19 800 600 55
    {| style := "glow"; color := "#00C4CC"; size := 32 |}
    (handleMouseMove true sample_event 0.5%float []) = [].
Proof.
  split; [lia|].
  exact (proj2 (proj2 (point_lives_18_frames sample_cos sample_sin 800 600
                         {| style := "glow"; color := "#00C4CC"; size := 32 |}
                         sample_event 0.5%float 18 (le_n 18)))).
Defined.

Lemma preset_sets_manual_clears_toggle_keeps_witness :
  handled (sample_key "[") = true /\
  activePresetId
    (fst (snd (handler (sample_key "[")
                 (applyPreset (Some canva_glow) initial_App, sample_page))))
  = None.
Proof.
  assert (H : handled (sample_key "[") = true) by reflexivity.
  split; [exact H|].
  pose proof (preset_sets_manual_clears_toggle_keeps
                (applyPreset (Some canva_glow) initial_App) sample_page
                canva_glow (sample_key "[") "" H)
    as (_ & _ & _ & _ & _ & Hopen & _).
  exact (proj2 (Hopen eq_refl)).
Defined.

Lemma star_is_closed_decagon_witness :
  JS.le (life sample_point) 0 = false /\
  List.length
    (drawPoint sample_cos sample_sin sample_point
       {| style := "star"; color := "#F59E0B"; size := 28 |}) = 16.
Proof.
  assert (H : JS.le (life sample_point) 0 = false) by reflexivity.
  split; [exact H|].
  rewrite (proj1 (star_is_closed_decagon sample_cos sample_sin
                    "#F59E0B" 28) sample_point H).
  reflexivity.
Defined.

Lemma start_discards_last_recording_witness :
  let shown := sample_after rejected_after_stop in
  let retried :=
    sample_after (rejected_after_stop ++
                  [ev_click_record; ev_mousemove sample_event 0.5%float;
                   ev_rejected None]) in
  recordingUrl (fst (state shown)) = Some (createObjectURL [7]) /\
  recordingError (fst (state shown)) = "Permission denied" /\
  recordingState (fst (state shown)) <> recording /\
  has_getDisplayMedia (snd (state shown)) = true /\
  recordingError (fst (startRecording (state shown))) = "" /\
  recordingUrl (fst (startRecording (state shown))) = None /\
  recordingState (fst (state retried)) = idle /\
  recordingUrl (fst (state retried)) = None.
Proof.
  cbv zeta.
  assert (H1 : recordingState (fst (state (sample_after rejected_after_stop)))
               <> recording) by (vm_compute; discriminate).
  assert (H2 : has_getDisplayMedia
                 (snd (state (sample_after rejected_after_stop))) = true)
    by (vm_compute; reflexivity).
  assert (H3 : existsb is_stop_event
                 [ev_mousemove sample_event 0.5%float; ev_rejected None]
               = false) by reflexivity.
  assert (H4 : run sample_cos sample_sin
                 [ev_mousemove sample_event 0.5%float; ev_rejected None]
                 (commit (fst (state (sample_after rejected_after_stop)))
                    (startRecording (state (sample_after rejected_after_stop)))
                    (published (sample_after rejected_after_stop)))
               = Some (sample_after
                         (rejected_after_stop ++
                          [ev_click_record;
                           ev_mousemove sample_event 0.5%float;
                           ev_rejected None])))
    by (vm_compute; reflexivity).
  pose proof (start_discards_last_recording sample_cos sample_sin
                (state (sample_after rejected_after_stop))
                (published (sample_after rejected_after_stop)) None
                [ev_mousemove sample_event 0.5%float; ev_rejected None]
                _ H1 H2 H3 H4) as (E1 & E2 & _ & _ & _ & E3 & _).
  split; [vm_compute; reflexivity|].
  split; [vm_compute; reflexivity|].
  split; [exact H1|]. split; [exact H2|].
  split; [exact E1|]. split; [exact E2|].
  split; [vm_compute; reflexivity | exact E3].
Defined.

Lemma control_surface_entries_and_guarded_cleanup_witness :
  cursorTrailControls
    (set_cursorTrailControls (Some foreign_controls) sample_page)
  = Some foreign_controls /\
  ident foreign_controls <> ident (snd (controls_effect sample_page)) /\
  controls_cleanup (snd (controls_effect sample_page))
    (set_cursorTrailControls (Some foreign_controls) sample_page)
  = set_cursorTrailControls (Some foreign_controls) sample_page.
Proof.
  assert (H1 : cursorTrailControls
                 (set_cursorTrailControls (Some foreign_controls) sample_page)
               = Some foreign_controls) by reflexivity.
  assert (H2 : ident foreign_controls
               <> ident (snd (controls_effect sample_page)))
    by (vm_compute; discriminate).
  split; [exact H1|]. split; [exact H2|].
  pose proof (control_surface_entries_and_guarded_cleanup sample_page
                foreign_controls
                (set_cursorTrailControls (Some foreign_controls) sample_page)
                H1 H2) as (_ & _ & _ & _ & _ & _ & H).
  exact H.
Defined.

(** * Further properties *)

(** ** Colour strings *)

Lemma hex_digit_plain (c : ascii) (v : Z) :
  Color.hex_digit c = Some v ->
  (0 <= v < 16)%Z /\
  Color.is_StrWhiteSpaceChar c = false /\
  Ascii.eqb c "#" = false /\ Ascii.eqb c "-" = false /\
  Ascii.eqb c "+" = false /\ Ascii.eqb c "x" = false /\
  Ascii.eqb c "X" = false.
Proof.
  destruct c as [b0 b1 b2 b3 b4 b5 b6 b7].
  destruct b0, b1, b2, b3, b4, b5, b6, b7; vm_compute; intros H;
    try discriminate H;
    injection H as <-; repeat split; congruence.
Qed.

Lemma hex_prefix_stops (s : string) (acc : Z) :
  Color.starts_with_hex_digit s = false -> Color.hex_prefix s acc = acc.
Proof.
  destruct s as [|c rest]; [reflexivity|]. cbn.
  destruct (Color.hex_digit c); [discriminate | reflexivity].
Qed.

(** [parseInt] on a string that starts with two radix-16 digits. *)
Lemma parseInt16_two_digits (c1 c2 : ascii) (v1 v2 : Z) (rest : string) :
  Color.hex_digit c1 = Some v1 -> Color.hex_digit c2 = Some v2 ->
  Color.parseInt16 (String c1 (String c2 rest)) =
  Some (Color.hex_prefix rest (v1 * 16 + v2)%Z).
Proof.
  intros H1 H2.
  destruct (hex_digit_plain _ _ H1) as (_ & W1 & _ & M1 & P1 & _ & _).
  destruct (hex_digit_plain _ _ H2) as (_ & _ & _ & _ & _ & X2 & X2').
  unfold Color.parseInt16. cbn [Color.trim_start]. rewrite W1.
  rewrite M1, P1. cbn [orb]. rewrite X2, X2'. cbn [orb].
  rewrite andb_false_r. cbn [Color.starts_with_hex_digit].
  rewrite H1. cbn [Color.hex_prefix]. rewrite H1, H2. reflexivity.
Qed.

Lemma ToInt32_small (n : Z) :
  (0 <= n < 2 ^ 31)%Z -> Color.ToInt32 (Some n) = n.
Proof.
  intros H. unfold Color.ToInt32, Color.round_binary64.
  replace (Z.abs n <? 2 ^ 53)%Z with true by (symmetry; apply Z.ltb_lt; lia).
  rewrite Z.mod_small by lia.
  replace (2 ^ 31 <=? n)%Z with false by (symmetry; apply Z.leb_gt; lia).
  reflexivity.
Qed.

Lemma channels_of_bytes (r g b : Z) :
  (0 <= r < 256)%Z -> (0 <= g < 256)%Z -> (0 <= b < 256)%Z ->
  let n := (r * 65536 + g * 256 + b)%Z in
  Z.land (Z.shiftr n 16) 255 = r /\
  Z.land (Z.shiftr n 8) 255 = g /\
  Z.land n 255 = b.
Proof.
  intros Hr Hg Hb n.
  change 255%Z with (Z.ones 8). rewrite !Z.land_ones, !Z.shiftr_div_pow2 by lia.
  change (2 ^ 16)%Z with 65536%Z. change (2 ^ 8)%Z with 256%Z.
  assert (E16 : (n / 65536 = r)%Z).
  { symmetry. apply (Z.div_unique n 65536 r (g * 256 + b)); [lia|].
    unfold n. lia. }
  assert (E8 : (n / 256 = r * 256 + g)%Z).
  { symmetry. apply (Z.div_unique n 256 (r * 256 + g) b); [lia|].
    unfold n. lia. }
  rewrite E16, E8. repeat split.
  - apply Z.mod_small; lia.
  - symmetry. apply (Z.mod_unique (r * 256 + g) 256 r g); lia.
  - symmetry. apply (Z.mod_unique n 256 (r * 256 + g) b); [lia|].
    unfold n. lia.
Qed.

Lemma hexToRgba_of_parse (hex : string) (alpha : float) (r g b : Z) :
  (0 <= r < 256)%Z -> (0 <= g < 256)%Z -> (0 <= b < 256)%Z ->
  Color.parseInt16 (Color.remove_first_hash hex) =
    Some (r * 65536 + g * 256 + b)%Z ->
  Color.hexToRgba hex alpha =
  {| Color.red := r; Color.green := g; Color.blue := b;
     Color.opacity := alpha |}.
Proof.
  intros Hr Hg Hb P. unfold Color.hexToRgba. rewrite P.
  rewrite ToInt32_small by lia.
  destruct (channels_of_bytes r g b Hr Hg Hb) as (-> & -> & ->).
  reflexivity.
Qed.

Lemma six_digits_parse (c1 c2 c3 c4 c5 c6 : ascii)
    (v1 v2 v3 v4 v5 v6 : Z) (rest : string) :
  Color.hex_digit c1 = Some v1 -> Color.hex_digit c2 = Some v2 ->
  Color.hex_digit c3 = Some v3 -> Color.hex_digit c4 = Some v4 ->
  Color.hex_digit c5 = Some v5 -> Color.hex_digit c6 = Some v6 ->
  Color.starts_with_hex_digit rest = false ->
  Color.parseInt16
    (String c1 (String c2 (String c3 (String c4 (String c5
       (String c6 rest)))))) =
  Some ((v1 * 16 + v2) * 65536 + (v3 * 16 + v4) * 256 + (v5 * 16 + v6))%Z.
Proof.
  intros H1 H2 H3 H4 H5 H6 Hrest.
  rewrite (parseInt16_two_digits _ _ _ _ _ H1 H2).
  cbn [Color.hex_prefix]. rewrite H3, H4, H5, H6.
  rewrite hex_prefix_stops by exact Hrest. f_equal. lia.
Qed.

(** X1. A colour written as ['#'] and six radix-16 digits, whatever
    follows that is not a digit, gives the three bytes the digit pairs
    spell as red, green and blue, and the alpha it was given; so do the six
    digits alone, without the ['#']. *)
Theorem hexToRgba_six_digits (c1 c2 c3 c4 c5 c6 : ascii)
    (v1 v2 v3 v4 v5 v6 : Z) (rest : string) (alpha : float) :
  Color.hex_digit c1 = Some v1 -> Color.hex_digit c2 = Some v2 ->
  Color.hex_digit c3 = Some v3 -> Color.hex_digit c4 = Some v4 ->
  Color.hex_digit c5 = Some v5 -> Color.hex_digit c6 = Some v6 ->
  Color.starts_with_hex_digit rest = false ->
  let six tail :=
    String c1 (String c2 (String c3 (String c4 (String c5 (String c6 tail)))))
  in
  let colour :=
    {| Color.red := v1 * 16 + v2; Color.green := v3 * 16 + v4;
       Color.blue := v5 * 16 + v6; Color.opacity := alpha |}%Z in
  Color.hexToRgba (String "#" (six rest)) alpha = colour /\
  Color.hexToRgba (six EmptyString) alpha = colour.
Proof.
  intros H1 H2 H3 H4 H5 H6 Hrest six colour.
  destruct (hex_digit_plain _ _ H1) as (B1 & _ & N1 & _).
  destruct (hex_digit_plain _ _ H2) as (B2 & _ & N2 & _).
  destruct (hex_digit_plain _ _ H3) as (B3 & _ & N3 & _).
  destruct (hex_digit_plain _ _ H4) as (B4 & _ & N4 & _).
  destruct (hex_digit_plain _ _ H5) as (B5 & _ & N5 & _).
  destruct (hex_digit_plain _ _ H6) as (B6 & _ & N6 & _).
  split.
  - apply hexToRgba_of_parse; try lia.
    cbn [Color.remove_first_hash Ascii.eqb Bool.eqb].
    now apply six_digits_parse.
  - apply hexToRgba_of_parse; try lia.
    unfold six. cbn [Color.remove_first_hash].
    rewrite N1, N2, N3, N4, N5, N6.
    now apply six_digits_parse.
Qed.

Lemma land_255_range (n : Z) : (0 <= Z.land n 255 <= 255)%Z.
Proof.
  assert (E : Z.land n 255 = (n mod 256)%Z).
  { change 255%Z with (Z.ones 8). now rewrite Z.land_ones by lia. }
  rewrite E. pose proof (Z.mod_pos_bound n 256 eq_refl) as H. lia.
Qed.

(** X2. Whatever string is given as colour, the three channels are
    integers between 0 and 255. *)
Theorem hexToRgba_channels_in_range (hex : string) (alpha : float) :
  let colour := Color.hexToRgba hex alpha in
  (0 <= Color.red colour <= 255)%Z /\
  (0 <= Color.green colour <= 255)%Z /\
  (0 <= Color.blue colour <= 255)%Z.
Proof.
  cbv zeta. unfold Color.hexToRgba.
  cbn [Color.red Color.green Color.blue].
  repeat split; apply land_255_range.
Qed.

Lemma not_hex_not_zero (c : ascii) :
  Color.hex_digit c = None -> Ascii.eqb c "0" = false.
Proof.
  destruct c as [b0 b1 b2 b3 b4 b5 b6 b7].
  destruct b0, b1, b2, b3, b4, b5, b6, b7; vm_compute; congruence.
Qed.

(** X3. A colour that does not start with a radix-16 digit (nor with white
    space, a sign or ['#']), such as a colour name, comes out black, with or
    without a ['#'] before it; so do the empty string and a lone ['#']. *)
Theorem hexToRgba_without_digits_is_black (c : ascii) (rest : string)
    (alpha : float) :
  Color.hex_digit c = None ->
  Color.is_StrWhiteSpaceChar c = false ->
  Ascii.eqb c "-" = false -> Ascii.eqb c "+" = false ->
  Ascii.eqb c "#" = false ->
  let black :=
    {| Color.red := 0; Color.green := 0; Color.blue := 0;
       Color.opacity := alpha |} in
  Color.hexToRgba (String c rest) alpha = black /\
  Color.hexToRgba (String "#" (String c rest)) alpha = black /\
  Color.hexToRgba "" alpha = black /\
  Color.hexToRgba "#" alpha = black.
Proof.
  intros Hd Hw Hm Hp Hh black.
  assert (P : forall tail, Color.parseInt16 (String c tail) = None).
  { intros tail. unfold Color.parseInt16. cbn [Color.trim_start].
    rewrite Hw, Hm, Hp. cbn [orb]. rewrite (not_hex_not_zero _ Hd).
    cbn [andb]. destruct tail; cbn [Color.starts_with_hex_digit];
      now rewrite Hd. }
  repeat split.
  - unfold Color.hexToRgba. cbn [Color.remove_first_hash]. rewrite Hh, P.
    reflexivity.
  - unfold Color.hexToRgba. cbn [Color.remove_first_hash Ascii.eqb Bool.eqb].
    rewrite P. reflexivity.
Qed.

(** X4. The three-digit shorthand is not expanded: ['#'] and three
    radix-16 digits are read as the number they spell, so red is 0, green
    is the first digit and blue is the byte the last two digits spell. *)
Theorem hexToRgba_three_digits (c1 c2 c3 : ascii) (v1 v2 v3 : Z)
    (rest : string) (alpha : float) :
  Color.hex_digit c1 = Some v1 -> Color.hex_digit c2 = Some v2 ->
  Color.hex_digit c3 = Some v3 ->
  Color.starts_with_hex_digit rest = false ->
  Color.hexToRgba (String "#" (String c1 (String c2 (String c3 rest)))) alpha
  = {| Color.red := 0; Color.green := v1; Color.blue := v2 * 16 + v3;
       Color.opacity := alpha |}%Z.
Proof.
  intros H1 H2 H3 Hrest.
  destruct (hex_digit_plain _ _ H1) as (B1 & _).
  destruct (hex_digit_plain _ _ H2) as (B2 & _).
  destruct (hex_digit_plain _ _ H3) as (B3 & _).
  apply hexToRgba_of_parse; try lia.
  cbn [Color.remove_first_hash Ascii.eqb Bool.eqb].
  rewrite (parseInt16_two_digits _ _ _ _ _ H1 H2).
  cbn [Color.hex_prefix]. rewrite H3.
  rewrite hex_prefix_stops by exact Hrest. f_equal. lia.
Qed.

(** ** Induction over the reachable states *)

Lemma reachable_app_ind (Math_cos Math_sin : float -> float)
    (P : App -> Prop) :
  (forall page, fresh_page page -> P (load_effect page initial_App)) ->
  (forall e s s',
     P (fst s) -> dispatch Math_cos Math_sin e s = Some s' -> P (fst s')) ->
  forall m, reachable Math_cos Math_sin m -> P (fst (state m)).
Proof.
  intros Hmount Hstep m Hreach.
  induction Hreach as [page Hfresh | m e m' _ IH Hm].
  - rewrite mount_app. now apply Hmount.
  - unfold step in Hm.
    destruct (dispatch Math_cos Math_sin e (state m)) as [after|] eqn:D;
      inv_some.
    rewrite commit_app. eapply Hstep; eauto.
Qed.

(** What each event does to the pool. *)
Lemma dispatch_points (Math_cos Math_sin : float -> float) (e : Event)
    (s s' : System) :
  dispatch Math_cos Math_sin e s = Some s' ->
  pointsRef (fst s') =
  match e with
  | ev_mousemove event random =>
      handleMouseMove (isActive (fst s)) event random (pointsRef (fst s))
  | ev_frame _ _ => advance (fadeSpeed (fst s)) (pointsRef (fst s))
  | _ => pointsRef (fst s)
  end.
Proof.
  intros H. destruct s as [a b].
  destruct e; cbn [dispatch] in H; cbn [fst].
  - inv_some. reflexivity.
  - rewrite render_eq_advance in H. inv_some. reflexivity.
  - inv_some. reflexivity.
  - inv_some. now rewrite handler_pool.
  - inv_some. reflexivity.
  - destruct (nth_error TRAIL_STYLES index); cbn [option_map] in H; inv_some.
    reflexivity.
  - destruct (nth_error COLOR_PRESETS index); cbn [option_map] in H; inv_some.
    reflexivity.
  - destruct (nth_error PRESET_COMBOS index); cbn [option_map] in H; inv_some.
    cbn [fst]. now rewrite applyPreset_pool.
  - inv_some. reflexivity.
  - inv_some. reflexivity.
  - inv_some. now rewrite click_record_pool.
  - unfold host_call in H. cbn [snd] in H.
    destruct (cursorTrailControls b); [|discriminate].
    destruct (entry name0 (entries c)); inv_some. now rewrite invoke_pool.
  - unfold startRecording_granted in H.
    destruct (unsettled b); [discriminate|].
    destruct outcome; inv_some;
      rewrite ?startRecording_catch_pool; reflexivity.
  - unfold startRecording_rejected in H.
    destruct (unsettled b); inv_some.
    now rewrite startRecording_catch_pool.
  - unfold recorder_ondataavailable in H.
    destruct (negb _); [discriminate|].
    destruct (Nat.ltb _ _); inv_some; reflexivity.
  - unfold recorder_onstop in H.
    destruct (negb _); inv_some. reflexivity.
Qed.

(** ** Particle pool, further *)

Lemma handleMouseMove_last_n (event : MouseEvent) (random : float)
    (points : list TrailPoint) :
  List.length points <= MAX_POINTS ->
  handleMouseMove true event random points =
  last_n MAX_POINTS (points ++ [created event random]).
Proof.
  intros H. unfold handleMouseMove, last_n. cbn [negb].
  fold (created event random). rewrite length_app. cbn [List.length].
  destruct (Nat.ltb MAX_POINTS (List.length points + 1)) eqn:E.
  - apply Nat.ltb_lt in E.
    replace (List.length points + 1 - MAX_POINTS) with 1 by lia.
    destruct points; reflexivity.
  - apply Nat.ltb_ge in E.
    replace (List.length points + 1 - MAX_POINTS) with 0 by lia.
    reflexivity.
Qed.

Lemma last_n_length {A : Type} (n : nat) (l : list A) :
  List.length (last_n n l) = Nat.min n (List.length l).
Proof. unfold last_n. rewrite length_skipn. lia. Qed.

Lemma last_n_app_last_n {A : Type} (n : nat) (l r : list A) :
  last_n n (last_n n l ++ r) = last_n n (l ++ r).
Proof.
  unfold last_n. rewrite !length_app, length_skipn.
  destruct (Nat.le_gt_cases (List.length l) n) as [Hle | Hgt].
  - replace (List.length l - n) with 0 by lia. cbn [skipn].
    now rewrite Nat.sub_0_r.
  - replace (List.length l - (List.length l - n)) with n by lia.
    replace (n + List.length r - n) with (List.length r) by lia.
    replace (List.length l + List.length r - n)
      with (List.length r + (List.length l - n)) by lia.
    rewrite <- skipn_skipn. f_equal.
    rewrite skipn_app.
    replace (List.length l - n - List.length l) with 0 by lia.
    reflexivity.
Qed.

(** X5. The pool is a sliding window: after any burst of pointer moves on
    an active trail, with no frame in between, it holds the last 48 of the
    points it had followed by the points created, oldest first; its length
    is 48 or, when fewer points have been seen, their number.  While the
    trail is inactive a pointer move leaves the pool as it is. *)
Theorem moves_keep_the_last_48 (events : list (MouseEvent * float))
    (points : list TrailPoint) :
  List.length points <= 48 ->
  let seen :=
    points ++ map (fun e => created (fst e) (snd e)) events in
  moves events points = last_n 48 seen /\
  List.length (moves events points) = Nat.min 48 (List.length seen) /\
  (forall event random,
     handleMouseMove false event random points = points).
Proof.
  intros H. cbv zeta.
  assert (E : moves events points =
              last_n MAX_POINTS
                (points ++ map (fun e => created (fst e) (snd e)) events)).
  { revert points H. induction events as [|[event random] rest IH];
      intros points H.
    - cbn [moves fold_left map]. rewrite app_nil_r. unfold last_n.
      replace (List.length points - MAX_POINTS) with 0
        by (unfold MAX_POINTS; lia).
      reflexivity.
    - change (moves ((event, random) :: rest) points)
        with (moves rest (handleMouseMove true event random points)).
      rewrite IH by (apply handleMouseMove_length; exact H).
      rewrite handleMouseMove_last_n by exact H.
      rewrite last_n_app_last_n. cbn [map fst snd].
      now rewrite <- app_assoc. }
  split; [exact E|]. split; [|reflexivity].
  rewrite E. apply last_n_length.
Qed.

Lemma handleMouseMove_In (active : bool) (event : MouseEvent)
    (random : float) (points : list TrailPoint) (p : TrailPoint) :
  In p (handleMouseMove active event random points) ->
  In p points \/ p = created event random.
Proof.
  unfold handleMouseMove. destruct active; cbn [negb]; [|now left].
  fold (created event random). intros H.
  assert (H' : In p (points ++ [created event random])).
  { destruct (Nat.ltb _ _); [|exact H].
    destruct (points ++ [created event random]); [exact H | now right]. }
  apply in_app_or in H'. destruct H' as [H' | [H' | []]]; auto.
Qed.

(** X6. In every reachable state every point of the pool is alive: its
    life is not [<= 0].  (A point is created with life 1, and a frame keeps
    only the points whose new life is not [<= 0].) *)
Theorem pool_points_are_alive (Math_cos Math_sin : float -> float)
    (m : Mounted) (p : TrailPoint) :
  reachable Math_cos Math_sin m ->
  In p (pointsRef (fst (state m))) ->
  JS.le (life p) 0 = false.
Proof.
  intros Hreach. revert p.
  apply (reachable_app_ind Math_cos Math_sin
           (fun a => forall p, In p (pointsRef a) -> JS.le (life p) 0 = false))
    with (m := m); [| |exact Hreach].
  - intros page _.
    apply (load_effect_preserves
             (fun a => forall p, In p (pointsRef a) ->
                                 JS.le (life p) 0 = false)); auto.
    intros p [].
  - intros e s s' IH D p Hp. rewrite (dispatch_points _ _ _ _ _ D) in Hp.
    destruct e; try (now apply IH).
    + apply handleMouseMove_In in Hp. destruct Hp as [Hp | ->];
        [now apply IH | reflexivity].
    + exact (advance_alive _ _ _ Hp).
Qed.

Lemma frames_life_after (Math_cos Math_sin : float -> float) (n : nat)
    (w h fadeSpeed : float) (options : DrawOptions) :
  forall p,
    frames Math_cos Math_sin n w h fadeSpeed options [p] =
    match life_after n fadeSpeed (life p) with
    | Some l => [with_life p l]
    | None => []
    end.
Proof.
  induction n as [|n IH]; intros p.
  - destruct p; reflexivity.
  - cbn [life_after].
    change (JS.le (life p - fadeSpeed / 1000) 0)
      with (expired (decay fadeSpeed p)).
    destruct (expired (decay fadeSpeed p)) eqn:E.
    + now apply frames_expired.
    + rewrite frames_alive by exact E. rewrite IH.
      change (life (decay fadeSpeed p))
        with (life p - fadeSpeed / 1000)%float.
      destruct (life_after n fadeSpeed (life p - fadeSpeed / 1000));
        reflexivity.
Qed.

(** X7. For every integer fade speed of the slider, 20 to 120, a point
    created by a pointer move is in the pool for exactly as many frames as
    exact arithmetic gives, the ceiling of [1000 / fadeSpeed], with one
    exception: at fade speed 100 the ten subtractions of [0.1] leave a
    positive remainder, and the point is removed by the 11th frame instead
    of the 10th. *)
Theorem slider_lifetimes (Math_cos Math_sin : float -> float)
    (canvas_width canvas_height : float) (options : DrawOptions)
    (event : MouseEvent) (random : float) (fadeSpeed : nat) :
  20 <= fadeSpeed <= 120 ->
  let lifetime :=
    exact_lifetime fadeSpeed + (if Nat.eqb fadeSpeed 100 then 1 else 0) in
  let pool n :=
    frames Math_cos Math_sin n canvas_width canvas_height
      (integer fadeSpeed) options
      (handleMouseMove true event random []) in
  pool lifetime = [] /\ pool (lifetime - 1) <> [].
Proof.
  intros Hrange. cbv beta zeta.
  change (handleMouseMove true event random [])
    with [created event random].
  rewrite !frames_life_after. cbn [life created].
  assert (Hall :
    forallb
      (fun f =>
         let n := exact_lifetime f + (if Nat.eqb f 100 then 1 else 0) in
         match life_after n (integer f) 1,
               life_after (n - 1) (integer f) 1 with
         | None, Some _ => true
         | _, _ => false
         end) (seq 20 101) = true) by (vm_compute; reflexivity).
  rewrite forallb_forall in Hall.
  specialize (Hall fadeSpeed). cbv zeta in Hall.
  assert (Hin : In fadeSpeed (seq 20 101)) by (apply in_seq; lia).
  specialize (Hall Hin).
  destruct (life_after _ (integer fadeSpeed) 1); [discriminate|].
  destruct (life_after _ (integer fadeSpeed) 1); [|discriminate].
  split; [reflexivity | discriminate].
Qed.

(** X8. With a style [drawPoint] has no case for (a stored style string
    can be anything), a point is drawn as nothing: the context is saved and
    restored and no path is painted.  A frame still ages the pool as usual
    and only clears the canvas. *)
Theorem unknown_style_draws_nothing (Math_cos Math_sin : float -> float)
    (unknown colour : string) (size : float) :
  known_style unknown = false ->
  let options := {| style := unknown; color := colour; size := size |} in
  (forall point,
     drawPoint Math_cos Math_sin point options = [ctx_save; ctx_restore]) /\
  (forall canvas_width canvas_height points fadeSpeed,
     render Math_cos Math_sin canvas_width canvas_height points fadeSpeed
       options =
     (advance fadeSpeed points,
      ctx_clearRect 0 0 canvas_width canvas_height ::
      flat_map (fun _ => [ctx_save; ctx_restore])
               (advance fadeSpeed points))).
Proof.
  intros Hunknown. cbv zeta.
  unfold known_style in Hunknown.
  cbn [TRAIL_STYLES map fst existsb] in Hunknown.
  repeat (apply orb_false_iff in Hunknown;
          destruct Hunknown as [? Hunknown]).
  assert (Hdraw : forall point,
            drawPoint Math_cos Math_sin point
              {| style := unknown; color := colour; size := size |} =
            [ctx_save; ctx_restore]).
  { intros point. unfold drawPoint. cbn [style].
    repeat match goal with
           | H : String.eqb unknown _ = false |- _ => rewrite H; clear H
           end.
    reflexivity. }
  split; [exact Hdraw|].
  intros w h points fadeSpeed. rewrite render_eq_advance. f_equal. f_equal.
  apply flat_map_ext. exact Hdraw.
Qed.

(** ** Keyboard shortcuts, further *)

(** X9. The [keydown] handler never changes anything without calling
    [preventDefault]: whenever it leaves the default action alone, the
    component and the browser are as they were.  It leaves both alone, in
    particular, for every event with a modifier key held or coming from an
    [INPUT] or a [TEXTAREA]. *)
Theorem handler_changes_only_what_it_prevents (event : KeyboardEvent)
    (s : System) :
  (fst (handler event s) = false -> snd (handler event s) = s) /\
  (handled event = false -> handler event s = (false, s)).
Proof.
  split.
  - destruct s as [a b]. unfold handler.
    repeat match goal with
    | |- context [if ?c then _ else _] => destruct c
    | |- context [match List.find ?f ?l with _ => _ end] =>
        destruct (List.find f l)
    end; cbn [fst snd]; intros H; try discriminate H; reflexivity.
  - destruct s as [a b]. unfold handled, handler. intros H.
    apply andb_false_iff in H. destruct H as [H | H];
      apply negb_false_iff in H; rewrite H; [reflexivity|].
    destruct (metaKey event || ctrlKey event || altKey event); reflexivity.
Qed.

Lemma presses_size (event : KeyboardEvent) (f : float -> float) :
  (forall s, trailSize (fst (snd (handler event s))) = f (trailSize (fst s))) ->
  forall k s,
    trailSize (fst (presses k event s)) = Nat.iter k f (trailSize (fst s)).
Proof.
  intros Hf. induction k as [|k IH]; intros s; [reflexivity|].
  cbn [presses]. rewrite IH, Hf. now rewrite Nat.iter_succ_r.
Qed.

Lemma iter_fixed {A : Type} (f : A -> A) (x : A) (k : nat) :
  f x = x -> Nat.iter k f x = x.
Proof.
  intros H. induction k as [|k IH]; [reflexivity|].
  rewrite Nat.iter_succ, IH. exact H.
Qed.

Lemma iter_reaches (f : float -> float) (bound : float) (k n : nat)
    (x : float) :
  f bound = bound -> Nat.iter n f x = bound -> n <= k ->
  Nat.iter k f x = bound.
Proof.
  intros Hfix Hn Hle. replace k with ((k - n) + n) by lia.
  rewrite Nat.iter_add, Hn. now apply iter_fixed.
Qed.

Lemma size_keys_checked (f : float -> float) (bound : float) :
  forallb
    (fun p =>
       forallb
         (fun j =>
            let x := Nat.iter j f (integer p) in
            JS.le 12 x && JS.le x 60 &&
            (negb (Nat.eqb j 24) || Leibniz.eqb x bound))
         (seq 0 25)) (seq 12 49) = true ->
  f bound = bound ->
  forall position k,
    12 <= position <= 60 ->
    let x := Nat.iter k f (integer position) in
    JS.le 12 x = true /\ JS.le x 60 = true /\ (24 <= k -> x = bound).
Proof.
  intros Hall Hfix position k Hpos.
  rewrite forallb_forall in Hall.
  specialize (Hall position ltac:(apply in_seq; lia)).
  rewrite forallb_forall in Hall.
  assert (Hj : forall j, j <= 24 ->
            JS.le 12 (Nat.iter j f (integer position)) = true /\
            JS.le (Nat.iter j f (integer position)) 60 = true /\
            (j = 24 -> Nat.iter j f (integer position) = bound)).
  { intros j Hle. specialize (Hall j ltac:(apply in_seq; lia)).
    apply andb_true_iff in Hall. destruct Hall as [Hall H3].
    apply andb_true_iff in Hall. destruct Hall as [H1 H2].
    repeat split; try assumption. intros E.
    apply orb_true_iff in H3. destruct H3 as [H3 | H3].
    - apply negb_true_iff, Nat.eqb_neq in H3. contradiction.
    - now apply Leibniz.eqb_spec. }
  destruct (Nat.le_gt_cases 24 k) as [Hk | Hk].
  - assert (E : Nat.iter k f (integer position) = bound).
    { destruct (Hj 24 (le_n 24)) as (_ & _ & H24).
      exact (iter_reaches f bound k 24 _ Hfix (H24 eq_refl) Hk). }
    destruct (Hj 24 (le_n 24)) as (H1 & H2 & H24).
    rewrite (H24 eq_refl) in H1, H2.
    cbv zeta. rewrite E. repeat split; assumption.
  - destruct (Hj k ltac:(lia)) as (H1 & H2 & _).
    cbv zeta. repeat split; try assumption. intros; lia.
Qed.

(** X10. From any integer size of the slider, 12 to 60, the size keys keep
    the size between 12 and 60 however often they are pressed; 24 presses
    of the opening bracket, or more, bring it to 12, and 24 presses of the
    closing bracket, or more, to 60. *)
Theorem size_keys_stay_in_range (event : KeyboardEvent) (a : App)
    (b : Browser) (position k : nat) :
  handled event = true ->
  12 <= position <= 60 ->
  let size :=
    trailSize
      (fst (presses k event (setTrailSize (integer position) a, b))) in
  (key event = "[" ->
   JS.le 12 size = true /\ JS.le size 60 = true /\
   (24 <= k -> size = 12%float)) /\
  (key event = "]" ->
   JS.le 12 size = true /\ JS.le size 60 = true /\
   (24 <= k -> size = 60%float)).
Proof.
  intros Hh Hpos. cbv zeta.
  split; intros Hkey.
  - rewrite (presses_size event
               (fun x => JS.Math_max 12 (x - 2)%float)).
    2:{ intros [a' b']. rewrite (handler_handled _ _ Hh), Hkey. reflexivity. }
    cbn [fst trailSize setTrailSize].
    apply (size_keys_checked (fun x => JS.Math_max 12 (x - 2)%float) 12%float);
      [vm_compute; reflexivity | vm_compute; reflexivity | exact Hpos].
  - rewrite (presses_size event
               (fun x => JS.Math_min 60 (x + 2)%float)).
    2:{ intros [a' b']. rewrite (handler_handled _ _ Hh), Hkey. reflexivity. }
    cbn [fst trailSize setTrailSize].
    apply (size_keys_checked (fun x => JS.Math_min 60 (x + 2)%float) 60%float);
      [vm_compute; reflexivity | vm_compute; reflexivity | exact Hpos].
Qed.

(** ** Settings persistence, further *)

Lemma payload_restores (a : App) :
  survives_JSON (trailSize a) = true ->
  survives_JSON (fadeSpeed a) = true ->
  settings (restore (payload a) initial_App) = settings a.
Proof.
  unfold survives_JSON. intros Hs Hf.
  apply andb_true_iff in Hs. destruct Hs as [Hs1 Hs2].
  apply andb_true_iff in Hf. destruct Hf as [Hf1 Hf2].
  apply negb_true_iff in Hs2. apply negb_true_iff in Hf2.
  destruct (restore_fields (payload a) initial_App)
    as (E1 & E2 & E3 & E4 & E5 & E6).
  unfold settings. rewrite E1, E2, E3, E4, E5, E6.
  unfold payload, JSON_number. rewrite Hs1, Hs2, Hf1, Hf2.
  cbn [property get_member String.eqb Ascii.eqb Bool.eqb].
  destruct (activePresetId a); reflexivity.
Qed.

Lemma payload_of_settings (a1 a2 : App) :
  settings a1 = settings a2 -> payload a1 = payload a2.
Proof.
  unfold settings, payload. intros H.
  injection H as H1 H2 H3 H4 H5 H6.
  rewrite H1, H2, H3, H4, H5, H6. reflexivity.
Qed.

(** X11. Settings survive a reload: when the size and the fade speed are
    finite and not zero, loading in a fresh instance what the save effect
    of a hydrated component has stored gives back its six settings, and the
    fresh instance then stores the same payload again. *)
Theorem saved_settings_load_back (a : App) (page : Browser) :
  settingsHydrated a = true ->
  survives_JSON (trailSize a) = true ->
  survives_JSON (fadeSpeed a) = true ->
  let reloaded := load_effect (save_effect a page) initial_App in
  settings reloaded = settings a /\
  settingsHydrated reloaded = true /\
  save_effect reloaded (save_effect a page) = save_effect a page.
Proof.
  intros Hh Hs Hf. cbv zeta.
  assert (E : load_effect (save_effect a page) initial_App =
              setSettingsHydrated true (restore (payload a) initial_App)).
  { unfold save_effect, load_effect. rewrite Hh. reflexivity. }
  assert (S : settings (load_effect (save_effect a page) initial_App) =
              settings a).
  { rewrite E. rewrite <- (payload_restores a Hs Hf). reflexivity. }
  split; [exact S|]. split; [now rewrite E|].
  unfold save_effect at 1. rewrite E at 1.
  cbn [settingsHydrated setSettingsHydrated negb].
  rewrite (payload_of_settings _ _ S).
  unfold save_effect. rewrite Hh. cbn [negb].
  destruct page; reflexivity.
Qed.

(** X12. A size or fade speed that is not finite does not survive a
    reload: it is stored as [null], and the fresh instance keeps its
    default, 22 for the size and 55 for the fade speed. *)
Theorem non_finite_settings_fall_back (a : App) (page : Browser) :
  settingsHydrated a = true ->
  let reloaded := load_effect (save_effect a page) initial_App in
  (is_finite (trailSize a) = false -> trailSize reloaded = 22%float) /\
  (is_finite (fadeSpeed a) = false -> fadeSpeed reloaded = 55%float).
Proof.
  intros Hh. cbv zeta.
  assert (E : load_effect (save_effect a page) initial_App =
              setSettingsHydrated true (restore (payload a) initial_App)).
  { unfold save_effect, load_effect. rewrite Hh. reflexivity. }
  rewrite E.
  destruct (restore_fields (payload a) initial_App)
    as (_ & _ & _ & E4 & E5 & _).
  cbn [trailSize fadeSpeed setSettingsHydrated].
  change (trailSize (setSettingsHydrated true ?x)) with (trailSize x).
  split; intros Hinf.
  - change (trailSize (restore (payload a) initial_App) = 22%float).
    rewrite E4. unfold payload, JSON_number. rewrite Hinf.
    cbn [property get_member String.eqb Ascii.eqb Bool.eqb].
    destruct (is_finite (fadeSpeed a)); reflexivity.
  - change (fadeSpeed (restore (payload a) initial_App) = 55%float).
    rewrite E5. unfold payload, JSON_number. rewrite Hinf.
    cbn [property get_member String.eqb Ascii.eqb Bool.eqb].
    reflexivity.
Qed.

(** An invariant every setter used by the callbacks keeps is kept by every
    event. *)
Lemma dispatch_closed (Math_cos Math_sin : float -> float)
    (P : App -> Prop) :
  (forall v a, P a -> P (set_pointsRef v a)) ->
  (forall v a, P a -> P (set_mediaRecorderRef v a)) ->
  (forall v a, P a -> P (set_chunksRef v a)) ->
  (forall v a, P a -> P (set_screenStreamRef v a)) ->
  (forall v a, P a -> P (setIsActive v a)) ->
  (forall v a, P a -> P (setTrailStyle v a)) ->
  (forall v a, P a -> P (setTrailColor v a)) ->
  (forall v a, P a -> P (setTrailSize v a)) ->
  (forall v a, P a -> P (setFadeSpeed v a)) ->
  (forall v a, P a -> P (setActivePresetId v a)) ->
  (forall v a, P a -> P (setObsReady v a)) ->
  (forall v a, P a -> P (setRecordingState v a)) ->
  (forall v a, P a -> P (setRecordingUrl v a)) ->
  (forall v a, P a -> P (setRecordingError v a)) ->
  forall e s s',
    P (fst s) -> dispatch Math_cos Math_sin e s = Some s' -> P (fst s').
Proof.
  intros Hpts Hrec Hchunks Hstream Hact Hstyle Hcolor Hsize Hfade Hpreset
         Hobs Hstate Hurl Herr.
  assert (Hstart : forall s, P (fst s) -> P (fst (startRecording s))).
  { intros [a b] H. unfold startRecording.
    repeat break_match; cbn [fst] in *; auto. }
  assert (Hstop : forall s, P (fst s) -> P (fst (stopRecording s))).
  { intros [a b] H. unfold stopRecording.
    repeat break_match; cbn [fst] in *; auto. }
  assert (Hcatch : forall m s, P (fst s) -> P (fst (startRecording_catch m s))).
  { intros m [a b] H. unfold startRecording_catch.
    cbn [screenStreamRef setRecordingError].
    destruct (screenStreamRef a); cbn [fst]; auto. }
  assert (Hpre : forall p a, P a -> P (applyPreset p a)).
  { intros [p|] a H; unfold applyPreset; auto 10. }
  intros e [a b] s' H D. cbn [fst] in H.
  destruct e; cbn [dispatch] in D.
  - inv_some. cbn [fst]. auto.
  - rewrite render_eq_advance in D. inv_some. cbn [fst]. auto.
  - inv_some. cbn [fst]. auto.
  - inv_some. unfold handler.
    repeat match goal with
    | |- context [if ?c then _ else _] => destruct c
    | |- context [match List.find ?f ?l with _ => _ end] =>
        destruct (List.find f l)
    end; cbn [snd fst]; auto;
      try (apply (Hstop (a, b)); exact H);
      try (apply (Hstart (a, b)); exact H).
  - inv_some. cbn [fst]. unfold click_toggle. auto.
  - destruct (nth_error TRAIL_STYLES index); cbn [option_map] in D; inv_some.
    cbn [fst]. unfold click_style. auto.
  - destruct (nth_error COLOR_PRESETS index); cbn [option_map] in D; inv_some.
    cbn [fst]. unfold click_color. auto.
  - destruct (nth_error PRESET_COMBOS index); cbn [option_map] in D; inv_some.
    cbn [fst]. auto.
  - inv_some. cbn [fst]. unfold change_size. auto.
  - inv_some. cbn [fst]. unfold change_fade. auto.
  - inv_some. unfold click_record. cbn [fst].
    destruct (RecordingState_eqb _ _);
      [apply (Hstop (a, b)) | apply (Hstart (a, b))]; exact H.
  - unfold host_call in D. cbn [snd] in D.
    destruct (cursorTrailControls b); [|discriminate].
    destruct (entry name0 (entries c)) as [ep|]; inv_some.
    destruct ep; unfold invoke.
    + cbn [fst]. auto.
    + destruct (List.find _ _); cbn [fst]; auto.
    + apply (Hstart (a, b)). exact H.
    + apply (Hstop (a, b)). exact H.
  - unfold startRecording_granted in D.
    destruct (unsettled b); [discriminate|].
    destruct outcome; inv_some.
    + apply Hcatch. exact H.
    + apply Hcatch. cbn [fst]. auto.
    + cbn [fst]. auto 6.
  - unfold startRecording_rejected in D.
    destruct (unsettled b); inv_some. apply Hcatch. exact H.
  - unfold recorder_ondataavailable in D.
    destruct (negb _); [discriminate|].
    destruct (Nat.ltb _ _); inv_some; cbn [fst]; auto.
  - unfold recorder_onstop in D.
    destruct (negb _); inv_some. cbn [fst]. auto 7.
Qed.

Lemma reachable_hydrated (Math_cos Math_sin : float -> float) (m : Mounted) :
  reachable Math_cos Math_sin m -> settingsHydrated (fst (state m)) = true.
Proof.
  apply (reachable_app_ind Math_cos Math_sin
           (fun a => settingsHydrated a = true)).
  - intros page _. reflexivity.
  - apply (dispatch_closed Math_cos Math_sin
             (fun a => settingsHydrated a = true)); auto.
Qed.

Lemma controls_effect_storage (b : Browser) :
  storage (fst (controls_effect b)) = storage b.
Proof. reflexivity. Qed.

Lemma controls_cleanup_storage (c : Controls) (b : Browser) :
  storage (controls_cleanup c b) = storage b.
Proof.
  unfold controls_cleanup. destruct (cursorTrailControls b); [|reflexivity].
  destruct (Nat.eqb _ _); reflexivity.
Qed.

Lemma reachable_persisted (Math_cos Math_sin : float -> float)
    (m : Mounted) :
  reachable Math_cos Math_sin m ->
  storage (snd (state m)) = parses_to (payload (fst (state m))).
Proof.
  intros Hreach.
  pose proof (reachable_hydrated _ _ _ Hreach) as Hh.
  destruct Hreach as [page _ | m e m' Hm Hstep].
  - clear Hh. unfold mount, controls_effect. cbn [state snd fst].
    reflexivity.
  - unfold step in Hstep.
    destruct (dispatch Math_cos Math_sin e (state m)) as [[a b]|] eqn:D;
      inv_some.
    rewrite commit_app in Hh. cbn [fst] in Hh.
    unfold commit.
    destruct (RecordingState_eqb _ _).
    + cbn [state snd fst]. unfold save_effect. rewrite Hh. reflexivity.
    + cbn [state snd fst].
      change (storage (fst (controls_effect
                (controls_cleanup (published m) (save_effect a b)))) =
              parses_to (payload a)).
      rewrite controls_effect_storage, controls_cleanup_storage.
      unfold save_effect. rewrite Hh. reflexivity.
Qed.

(** X13. Settings are always persisted: in every reachable state the page
    holds, under the storage key, exactly the payload of the component's
    current settings, whatever events (keys, clicks, host calls, capture
    events) led there. *)
Theorem settings_always_persisted (Math_cos Math_sin : float -> float)
    (m : Mounted) :
  reachable Math_cos Math_sin m ->
  settingsHydrated (fst (state m)) = true /\
  storage (snd (state m)) = parses_to (payload (fst (state m))).
Proof.
  intros Hreach. split.
  - exact (reachable_hydrated _ _ _ Hreach).
  - exact (reachable_persisted _ _ _ Hreach).
Qed.

(** X14. Reloading the page gives the settings back: from any reachable
    state whose size and fade speed are finite and not zero, a fresh
    instance mounted on the page as it is then loads the six settings the
    component has. *)
Theorem reload_restores_settings (Math_cos Math_sin : float -> float)
    (m : Mounted) :
  reachable Math_cos Math_sin m ->
  survives_JSON (trailSize (fst (state m))) = true ->
  survives_JSON (fadeSpeed (fst (state m))) = true ->
  settings (fst (state (mount (snd (state m))))) = settings (fst (state m)).
Proof.
  intros Hreach Hs Hf. rewrite mount_app.
  unfold load_effect. rewrite (reachable_persisted _ _ _ Hreach).
  cbn [payload]. rewrite <- (payload_restores _ Hs Hf). reflexivity.
Qed.

(** ** Recording controller, further *)

Lemma deliver_kept (recorder : MediaRecorder) (chunks : list Blob) :
  forall a b,
    is_active recorder b = true ->
    deliver recorder chunks (a, b) =
    Some (set_chunksRef (chunksRef a ++ kept chunks) a, b).
Proof.
  induction chunks as [|data rest IH]; intros a b Hact.
  - cbn [deliver kept filter]. rewrite app_nil_r. destruct a; reflexivity.
  - cbn [deliver kept filter]. unfold recorder_ondataavailable.
    rewrite Hact. cbn [negb].
    destruct (Nat.ltb 0 (List.length data)).
    + rewrite IH by exact Hact. cbn [chunksRef set_chunksRef].
      rewrite <- app_assoc. reflexivity.
    + apply IH. exact Hact.
Qed.

Lemma is_active_head (recorder : MediaRecorder) (others : list MediaRecorder)
    (b : Browser) :
  is_active recorder (set_active_recorders (recorder :: others) b) = true.
Proof.
  unfold is_active. cbn [active_recorders set_active_recorders existsb].
  now rewrite Nat.eqb_refl.
Qed.

Lemma not_in_without (n : nat) (l : list nat) :
  ~ In n (filter (fun s => negb (Nat.eqb s n)) l).
Proof.
  intros H. apply filter_In in H. destruct H as [_ H].
  rewrite Nat.eqb_refl in H. discriminate H.
Qed.

(** X15. A whole capture session, started in any state other than
    ['recording'] on a browser that can capture the screen, ends in state
    ['idle'] with a download link to one blob: the concatenation, in
    arrival order, of the non-empty chunks the recorder delivered (empty
    ones are dropped).  The chunk buffer is empty again, both refs are
    cleared, no error is shown, the tracks of the session's stream are
    stopped and its recorder is no longer active. *)
Theorem capture_session_produces_the_recording (chunks : list Blob)
    (s : System) :
  recordingState (fst s) <> recording ->
  has_getDisplayMedia (snd s) = true ->
  exists s',
    capture_session chunks s = Some s' /\
    recordingState (fst s') = idle /\
    recordingUrl (fst s') = Some (createObjectURL (List.concat (kept chunks)))
    /\ chunksRef (fst s') = [] /\
    screenStreamRef (fst s') = None /\
    mediaRecorderRef (fst s') = None /\
    recordingError (fst s') = "" /\
    ~ In (streams_created (snd s)) (live_streams (snd s')) /\
    is_active (streams_created (snd s)) (snd s') = false /\
    unsettled (snd s') = unsettled (snd s).
Proof.
  destruct s as [a b]. cbn [fst snd]. intros Hstate Hcap.
  unfold capture_session, startRecording. cbn [fst snd]. rewrite Hcap.
  replace (RecordingState_eqb (recordingState a) recording) with false
    by (destruct (recordingState a); try reflexivity; contradiction).
  cbn [negb snd streams_created].
  unfold startRecording_granted.
  cbn [unsettled set_unsettled streams_created].
  rewrite deliver_kept by apply is_active_head.
  unfold stopRecording. fields. cbn [RecordingState_eqb negb].
  unfold recorder_onstop. rewrite is_active_head. cbn [negb].
  eexists. split; [reflexivity|]. fields.
  repeat match goal with |- _ /\ _ => split end; try reflexivity.
  - unfold stop_tracks.
    cbn [live_streams set_live_streams set_active_recorders
         set_streams_created set_unsettled].
    apply not_in_without.
  - unfold is_active, stop_tracks.
    cbn [active_recorders set_active_recorders set_live_streams].
    cbn [existsb filter]. rewrite Nat.eqb_refl. cbn [negb].
    destruct (existsb _ _) eqn:E; [|reflexivity].
    apply existsb_exists in E. destruct E as (r & Hin & Hr).
    apply Nat.eqb_eq in Hr. subst r.
    exfalso. exact (not_in_without _ _ Hin).
Qed.

Lemma or_default_not_empty (message : option string) (fallback : string) :
  fallback <> "" -> or_default message fallback <> "".
Proof.
  intros H. unfold or_default. destruct message as [m|]; [|exact H].
  destruct (String.eqb m "") eqn:E; [exact H|].
  now apply String.eqb_neq.
Qed.

Lemma or_default_given (text fallback : string) :
  text <> "" -> or_default (Some text) fallback = text.
Proof.
  intros H. unfold or_default. apply String.eqb_neq in H. now rewrite H.
Qed.

Lemma or_default_missing (message : option string) (fallback : string) :
  message = None \/ message = Some "" -> or_default message fallback = fallback.
Proof. intros [-> | ->]; reflexivity. Qed.

(** X16. A start that cannot go ahead always says why.  Without the
    capture capability [startRecording] sets the fixed message and changes
    nothing else, browser included.  When the request is rejected the
    component is back in state ['idle'] with no stream held, and the
    message shown is the rejection's own message when it has a non-empty
    one, and the text ['Unable to start screen recording.'] when the
    message is missing or empty; it is never empty.  If no stream was held
    when the start was attempted, the capture bookkeeping of the browser is
    back where it was before the attempt. *)
Theorem failed_start_is_reported (s : System) (message : option string) :
  recordingState (fst s) <> recording ->
  (has_getDisplayMedia (snd s) = false ->
   startRecording s =
   (setRecordingError "Screen capture is not supported in this browser yet."
      (fst s), snd s)) /\
  (has_getDisplayMedia (snd s) = true ->
   exists s',
     startRecording_rejected message (startRecording s) = Some s' /\
     recordingState (fst s') = idle /\
     screenStreamRef (fst s') = None /\
     (forall text, message = Some text -> text <> "" ->
                   recordingError (fst s') = text) /\
     (message = None \/ message = Some "" ->
      recordingError (fst s') = "Unable to start screen recording.") /\
     recordingError (fst s') <> "" /\
     (screenStreamRef (fst s) = None -> snd s' = snd s)).
Proof.
  destruct s as [a b]. cbn [fst snd]. intros Hstate.
  unfold startRecording.
  replace (RecordingState_eqb (recordingState a) recording) with false
    by (destruct (recordingState a); try reflexivity; contradiction).
  split; intros Hcap; rewrite Hcap; cbn [negb]; [reflexivity|].
  unfold startRecording_rejected, startRecording_catch.
  cbn [unsettled set_unsettled]. fields.
  destruct (screenStreamRef a) as [held|] eqn:Eheld.
  - eexists. split; [reflexivity|]. fields.
    split; [reflexivity|]. split; [reflexivity|].
    split; [intros text -> Htext; now apply or_default_given|].
    split; [apply or_default_missing|].
    split; [apply or_default_not_empty; discriminate|].
    intros H. discriminate H.
  - eexists. split; [reflexivity|]. fields.
    split; [reflexivity|]. split; [exact Eheld|].
    split; [intros text -> Htext; now apply or_default_given|].
    split; [apply or_default_missing|].
    split; [apply or_default_not_empty; discriminate|].
    intros _. destruct b; reflexivity.
Qed.

(** X17. What becomes of a granted stream when the rest of the start
    fails.  If [recorder.start()] throws, the stream is already in
    [screenStreamRef] and the [catch] block stops its tracks.  If the
    [MediaRecorder] constructor throws, the stream is not yet in the ref:
    the [catch] block does not reach it and its tracks stay live, although
    the component is back in state ['idle'] with no stream held. *)
Theorem granted_stream_after_a_failed_start (s : System)
    (message : option string) :
  recordingState (fst s) <> recording ->
  has_getDisplayMedia (snd s) = true ->
  screenStreamRef (fst s) = None ->
  let granted := streams_created (snd s) in
  (exists s',
     startRecording_granted (start_throws message) (startRecording s) = Some s'
     /\ recordingState (fst s') = idle /\ screenStreamRef (fst s') = None /\
     ~ In granted (live_streams (snd s'))) /\
  (exists s',
     startRecording_granted (constructor_throws message) (startRecording s)
       = Some s'
     /\ recordingState (fst s') = idle /\ screenStreamRef (fst s') = None /\
     In granted (live_streams (snd s'))).
Proof.
  destruct s as [a b]. cbn [fst snd]. intros Hstate Hcap Hnone. cbv zeta.
  unfold startRecording. rewrite Hcap.
  replace (RecordingState_eqb (recordingState a) recording) with false
    by (destruct (recordingState a); try reflexivity; contradiction).
  cbn [negb]. unfold startRecording_granted, startRecording_catch.
  cbn [unsettled set_unsettled streams_created]. fields.
  rewrite Hnone. split.
  - eexists. split; [reflexivity|]. fields. repeat split.
    unfold stop_tracks.
    cbn [live_streams set_live_streams set_streams_created set_unsettled].
    apply not_in_without.
  - eexists. split; [reflexivity|]. fields.
    repeat split; [exact Hnone|].
    cbn [live_streams set_live_streams set_streams_created set_unsettled
         streams_created In].
    left. reflexivity.
Qed.


Lemma reachable_recorder_ref (Math_cos Math_sin : float -> float)
    (m : Mounted) :
  reachable Math_cos Math_sin m ->
  recorder_ref_matches_state (fst (state m)).
Proof.
  apply (reachable_app_ind Math_cos Math_sin recorder_ref_matches_state).
  - intros page _.
    apply (load_effect_preserves recorder_ref_matches_state); auto.
    exact I.
  - assert (Hstart : forall s, recorder_ref_matches_state (fst s) ->
                               recorder_ref_matches_state
                                 (fst (startRecording s))).
    { intros [a b] H. unfold startRecording.
      repeat break_match; cbn [fst] in *; auto. }
    assert (Hstop : forall s, recorder_ref_matches_state (fst s) ->
                              recorder_ref_matches_state
                                (fst (stopRecording s))).
    { intros [a b] H. unfold stopRecording.
      repeat break_match; cbn [fst] in *; auto. reflexivity. }
    assert (Hcatch : forall msg s,
              recorder_ref_matches_state (fst (startRecording_catch msg s))).
    { intros msg [a b]. unfold startRecording_catch. fields.
      destruct (screenStreamRef a); exact I. }
    assert (Hpre : forall p a, recorder_ref_matches_state a ->
                               recorder_ref_matches_state (applyPreset p a)).
    { intros [p|] a H; exact H. }
    intros e [a b] s' H D. cbn [fst] in H.
    destruct e; cbn [dispatch] in D.
    + inv_some. exact H.
    + rewrite render_eq_advance in D. inv_some. exact H.
    + inv_some. exact H.
    + inv_some. unfold handler.
      repeat match goal with
      | |- context [if ?c then _ else _] => destruct c
      | |- context [match List.find ?f ?l with _ => _ end] =>
          destruct (List.find f l)
      end; cbn [snd fst]; auto;
        try (apply (Hstop (a, b)); exact H);
        try (apply (Hstart (a, b)); exact H).
    + inv_some. exact H.
    + destruct (nth_error TRAIL_STYLES index); cbn [option_map] in D;
        inv_some. exact H.
    + destruct (nth_error COLOR_PRESETS index); cbn [option_map] in D;
        inv_some. exact H.
    + destruct (nth_error PRESET_COMBOS index); cbn [option_map] in D;
        inv_some. cbn [fst]. auto.
    + inv_some. exact H.
    + inv_some. exact H.
    + inv_some. unfold click_record. cbn [fst].
      destruct (RecordingState_eqb _ _);
        [apply (Hstop (a, b)) | apply (Hstart (a, b))]; exact H.
    + unfold host_call in D. cbn [snd] in D.
      destruct (cursorTrailControls b); [|discriminate].
      destruct (entry name0 (entries c)) as [ep|]; inv_some.
      destruct ep; unfold invoke.
      * exact H.
      * destruct (List.find _ _); cbn [fst]; auto.
      * apply (Hstart (a, b)). exact H.
      * apply (Hstop (a, b)). exact H.
    + unfold startRecording_granted in D.
      destruct (unsettled b); [discriminate|].
      destruct outcome; inv_some; try apply Hcatch.
      unfold recorder_ref_matches_state. fields. discriminate.
    + unfold startRecording_rejected in D.
      destruct (unsettled b); inv_some. apply Hcatch.
    + unfold recorder_ondataavailable in D.
      destruct (negb _); [discriminate|].
      destruct (Nat.ltb _ _); inv_some; exact H.
    + unfold recorder_onstop in D.
      destruct (negb _); inv_some. exact I.
Qed.

(** X18. In every reachable state ['recording'] there is a recorder to
    stop: [stopRecording] always takes the component to ['processing'],
    clears the recorder ref and keeps holding the stream; a second call
    then changes nothing.  In every reachable state ['processing'] the
    recorder ref is already cleared. *)
Theorem stop_always_takes_effect (Math_cos Math_sin : float -> float)
    (m : Mounted) :
  reachable Math_cos Math_sin m ->
  (recordingState (fst (state m)) = recording ->
   let s' := stopRecording (state m) in
   recordingState (fst s') = processing /\
   mediaRecorderRef (fst s') = None /\
   screenStreamRef (fst s') = screenStreamRef (fst (state m)) /\
   stopRecording s' = s') /\
  (recordingState (fst (state m)) = processing ->
   mediaRecorderRef (fst (state m)) = None).
Proof.
  intros Hreach. apply reachable_recorder_ref in Hreach.
  unfold recorder_ref_matches_state in Hreach.
  destruct (state m) as [a b]. cbn [fst] in *. split; intros E.
  - rewrite E in Hreach. cbv zeta. unfold stopRecording. rewrite E.
    cbn [RecordingState_eqb negb].
    destruct (mediaRecorderRef a); [|contradiction].
    fields. repeat split.
  - rewrite E in Hreach. exact Hreach.
Qed.







Lemma find_entry_four (controls : Controls) :
  entries controls =
    [("toggle", call_toggle); ("applyPreset", call_applyPreset);
     ("startRecording", call_startRecording);
     ("stopRecording", call_stopRecording)] ->
  entry "toggle" (entries controls) = Some call_toggle /\
  entry "applyPreset" (entries controls) = Some call_applyPreset /\
  entry "startRecording" (entries controls) = Some call_startRecording /\
  entry "stopRecording" (entries controls) = Some call_stopRecording.
Proof. intros ->. repeat split. Qed.



(** X20. The host's [applyPreset(id)] applies the catalogue preset of that
    id, the same transition as the preset's own button, and does nothing at
    all when no preset has the id. *)
Theorem host_applyPreset_by_id (s : System) (preset : Preset)
    (arg : string) :
  (In preset PRESET_COMBOS ->
   invoke call_applyPreset (id preset) s =
   (applyPreset (Some preset) (fst s), snd s)) /\
  ((forall p, In p PRESET_COMBOS -> id p <> arg) ->
   invoke call_applyPreset arg s = s).
Proof.
  destruct s as [a b]. split.
  - intros [<- | [<- | [<- | []]]]; reflexivity.
  - intros Hnone. unfold invoke.
    destruct (List.find (fun combo => String.eqb (id combo) arg)
                        PRESET_COMBOS) as [p|] eqn:E; [|reflexivity].
    apply find_some in E. destruct E as [Hin Heq].
    apply String.eqb_eq in Heq. exfalso. exact (Hnone p Hin Heq).
Qed.

(** ** The held stream *)








(** ** Style renderer, further *)

Ltac no_bracket :=
  let H := fresh in
  intros H; cbn in H;
  repeat (destruct H as [H | H]; [discriminate H|]); exact H.

(** X22. Whatever the point, the style and the other options, what
    [drawPoint] does to the context is bracketed: it starts with [save],
    ends with [restore], and neither call occurs in between.  So no setting
    of one point (fill or stroke style, line width, global alpha) carries
    over to the next point or frame. *)
Theorem drawPoint_is_bracketed (Math_cos Math_sin : float -> float)
    (point : TrailPoint) (options : DrawOptions) :
  let calls := drawPoint Math_cos Math_sin point options in
  let body := removelast (tl calls) in
  calls = ctx_save :: body ++ [ctx_restore] /\
  ~ In ctx_save body /\ ~ In ctx_restore body.
Proof.
  cbv zeta. unfold drawPoint.
  destruct (String.eqb (style options) "gradient");
  [|destruct (String.eqb (style options) "sparkle");
    [|destruct (String.eqb (style options) "brush");
      [|destruct (String.eqb (style options) "star");
        [|destruct (String.eqb (style options) "glow")]]]];
  cbv zeta;
  cbn [app tl removelast flat_map counter counter_from sparkle_arm
       star_spike outerVertex innerVertex];
  (split; [reflexivity|]; split; no_bracket).
Qed.

(** X23. For a point the animation step draws (its life is not [<= 0]),
    the sparkle style strokes four arms from the point, each
    [0.9 * radius] long with [radius = size * life], the k-th at angle
    [k pi / 2 + seed], in the point's colour at opacity [life] and with
    line width [max(1, radius / 6)]. *)
Theorem sparkle_is_four_arms (Math_cos Math_sin : float -> float)
    (point : TrailPoint) (colour : string) (scale : float) :
  JS.le (life point) 0 = false ->
  let radius := (scale * life point)%float in
  let arm k :=
    let angle := (JS.Math_PI / 2 * k + seed point)%float in
    [ ctx_beginPath;
      ctx_moveTo (x point) (y point);
      ctx_lineTo (x point + Math_cos angle * (radius * 0.9))%float
                 (y point + Math_sin angle * (radius * 0.9))%float;
      ctx_stroke ] in
  drawPoint Math_cos Math_sin point
    {| style := "sparkle"; color := colour; size := scale |} =
  [ ctx_save;
    ctx_strokeStyle (paint_color (hexToRgba colour (life point)));
    ctx_lineWidth (JS.Math_max 1 (radius / 6)%float) ] ++
  arm 0%float ++ arm 1%float ++ arm 2%float ++ arm 3%float ++
  [ctx_restore].
Proof.
  intros Halive. cbv zeta. unfold drawPoint.
  rewrite (Math_max_alive _ Halive).
  cbn [style color size String.eqb Ascii.eqb Bool.eqb].
  unfold counter. cbn [counter_from flat_map sparkle_arm app].
  replace (0 + 1)%float with 1%float by reflexivity.
  replace (1 + 1)%float with 2%float by reflexivity.
  replace (2 + 1)%float with 3%float by reflexivity.
  reflexivity.
Qed.

(** ** Colour strings, further *)

Lemma remove_first_hash_none (s : string) :
  ~ In "#"%char (list_ascii_of_string s) -> Color.remove_first_hash s = s.
Proof.
  induction s as [|c rest IH]; intros H; [reflexivity|].
  cbn [Color.remove_first_hash].
  destruct (Ascii.eqb c "#") eqn:E.
  - apply Ascii.eqb_eq in E. subst c. exfalso. apply H. now left.
  - rewrite IH; [reflexivity|]. intros Hin. apply H. now right.
Qed.

(** X24. The ['#'] is optional and only the first one is dropped: a
    colour string that contains no ['#'] gives the same colour with a ['#']
    put before it. *)
Theorem hexToRgba_hash_is_optional (s : string) (alpha : float) :
  ~ In "#"%char (list_ascii_of_string s) ->
  Color.hexToRgba (String "#" s) alpha = Color.hexToRgba s alpha.
Proof.
  intros H. unfold Color.hexToRgba.
  cbn [Color.remove_first_hash Ascii.eqb Bool.eqb].
  now rewrite (remove_first_hash_none s H).
Qed.

(** ** The further theorems at sample inputs *)

Lemma hexToRgba_six_digits_witness :
  Color.hex_digit "8" = Some 8%Z /\
  Color.hexToRgba "#8B5CF6" 1 =
  {| Color.red := 139; Color.green := 92; Color.blue := 246;
     Color.opacity := 1 |}.
Proof.
  split; [reflexivity|].
  exact (proj1 (hexToRgba_six_digits "8" "B" "5" "C" "F" "6"
                  8 11 5 12 15 6 "" 1
                  eq_refl eq_refl eq_refl eq_refl eq_refl eq_refl eq_refl)).
Defined.

Lemma hexToRgba_without_digits_is_black_witness :
  Color.hex_digit "r" = None /\
  Color.hexToRgba "red" 1 =
  {| Color.red := 0; Color.green := 0; Color.blue := 0; Color.opacity := 1 |}.
Proof.
  split; [reflexivity|].
  exact (proj1 (hexToRgba_without_digits_is_black "r" "ed" 1
                  eq_refl eq_refl eq_refl eq_refl eq_refl)).
Defined.

Lemma hexToRgba_three_digits_witness :
  Color.hex_digit "a" = Some 10%Z /\
  Color.hexToRgba "#abc" 1 =
  {| Color.red := 0; Color.green := 10; Color.blue := 188;
     Color.opacity := 1 |}.
Proof.
  split; [reflexivity|].
  exact (hexToRgba_three_digits "a" "b" "c" 10 11 12 "" 1
           eq_refl eq_refl eq_refl eq_refl).
Defined.

Lemma hexToRgba_hash_is_optional_witness :
  ~ In "#"%char (list_ascii_of_string "8B5CF6") /\
  Color.hexToRgba "#8B5CF6" 1 = Color.hexToRgba "8B5CF6" 1.
Proof.
  assert (H : ~ In "#"%char (list_ascii_of_string "8B5CF6")).
  { cbn. intros H. repeat (destruct H as [H | H]; [discriminate H|]).
    exact H. }
  split; [exact H|]. exact (hexToRgba_hash_is_optional "8B5CF6" 1 H).
Defined.

Lemma moves_keep_the_last_48_witness :
  List.length sample_pool <= 48 /\
  List.length (moves [(sample_event, 0.5%float)] sample_pool) = 4.
Proof.
  assert (H : List.length sample_pool <= 48) by (cbn; lia).
  split; [exact H|].
  rewrite (proj1 (proj2 (moves_keep_the_last_48
                           [(sample_event, 0.5%float)] sample_pool H))).
  reflexivity.
Defined.

Lemma pool_points_are_alive_witness :
  reachable sample_cos sample_sin (sample_after (burst 3)) /\
  In (created sample_event 0.5%float)
     (pointsRef (fst (state (sample_after (burst 3))))) /\
  JS.le (life (created sample_event 0.5%float)) 0 = false.
Proof.
  assert (H : In (created sample_event 0.5%float)
                 (pointsRef (fst (state (sample_after (burst 3)))))).
  { vm_compute. left. reflexivity. }
  split; [apply sample_after_reachable|]. split; [exact H|].
  exact (pool_points_are_alive sample_cos sample_sin
           (sample_after (burst 3)) (created sample_event 0.5%float)
           (sample_after_reachable (burst 3)) H).
Defined.

Lemma slider_lifetimes_witness :
  20 <= 100 <= 120 /\
  frames sample_cos sample_sin 11 800 600 (integer 100)
    {| style := "glow"; color := "#00C4CC"; size := 32 |}
    (handleMouseMove true sample_event 0.5%float []) = [].
Proof.
  assert (H : 20 <= 100 <= 120) by lia.
  split; [exact H|].
  exact (proj1 (slider_lifetimes sample_cos sample_sin 800 600
                  {| style := "glow"; color := "#00C4CC"; size := 32 |}
                  sample_event 0.5%float 100 H)).
Defined.

Lemma unknown_style_draws_nothing_witness :
  known_style "plaid" = false /\
  drawPoint sample_cos sample_sin sample_point
    {| style := "plaid"; color := "#00C4CC"; size := 32 |} =
  [ctx_save; ctx_restore].
Proof.
  split; [reflexivity|].
  exact (proj1 (unknown_style_draws_nothing sample_cos sample_sin
                  "plaid" "#00C4CC" 32 eq_refl) sample_point).
Defined.

Lemma sparkle_is_four_arms_witness :
  JS.le (life sample_point) 0 = false /\
  List.length
    (drawPoint sample_cos sample_sin sample_point
       {| style := "sparkle"; color := "#F59E0B"; size := 28 |}) = 20.
Proof.
  split; [reflexivity|].
  rewrite (sparkle_is_four_arms sample_cos sample_sin sample_point
             "#F59E0B" 28 eq_refl).
  reflexivity.
Defined.

Lemma handler_changes_only_what_it_prevents_witness :
  handled ctrl_t = false /\
  handler ctrl_t (initial_App, sample_page) =
  (false, (initial_App, sample_page)).
Proof.
  split; [reflexivity|].
  exact (proj2 (handler_changes_only_what_it_prevents ctrl_t
                  (initial_App, sample_page)) eq_refl).
Defined.

Lemma size_keys_stay_in_range_witness :
  handled (sample_key "[") = true /\ 12 <= 22 <= 60 /\
  trailSize
    (fst (presses 100 (sample_key "[")
            (setTrailSize (integer 22) initial_App, sample_page)))
  = 12%float.
Proof.
  assert (H : 12 <= 22 <= 60) by lia.
  split; [reflexivity|]. split; [exact H|].
  apply (proj1 (size_keys_stay_in_range (sample_key "[") initial_App
                  sample_page 22 100 eq_refl H) eq_refl).
  lia.
Defined.

Lemma saved_settings_load_back_witness :
  settingsHydrated example_settings = true /\
  survives_JSON (trailSize example_settings) = true /\
  survives_JSON (fadeSpeed example_settings) = true /\
  settings (load_effect (save_effect example_settings sample_page)
              initial_App) = settings example_settings.
Proof.
  split; [reflexivity|]. split; [reflexivity|]. split; [reflexivity|].
  exact (proj1 (saved_settings_load_back example_settings sample_page
                  eq_refl eq_refl eq_refl)).
Defined.

Lemma non_finite_settings_fall_back_witness :
  settingsHydrated oversized = true /\
  is_finite (trailSize oversized) = false /\
  trailSize (load_effect (save_effect oversized sample_page) initial_App)
  = 22%float.
Proof.
  split; [reflexivity|]. split; [reflexivity|].
  exact (proj1 (non_finite_settings_fall_back oversized sample_page eq_refl)
           eq_refl).
Defined.

Lemma settings_always_persisted_witness :
  reachable sample_cos sample_sin
    (sample_after [ev_change_size 40; ev_click_toggle]) /\
  storage (snd (state (sample_after [ev_change_size 40; ev_click_toggle]))) =
  parses_to
    (payload (fst (state (sample_after [ev_change_size 40;
                                        ev_click_toggle])))).
Proof.
  split; [apply sample_after_reachable|].
  exact (proj2 (settings_always_persisted sample_cos sample_sin _
                  (sample_after_reachable
                     [ev_change_size 40; ev_click_toggle]))).
Defined.

Lemma reload_restores_settings_witness :
  reachable sample_cos sample_sin
    (sample_after [ev_change_size 40; ev_click_toggle]) /\
  survives_JSON
    (trailSize (fst (state (sample_after [ev_change_size 40;
                                          ev_click_toggle])))) = true /\
  survives_JSON
    (fadeSpeed (fst (state (sample_after [ev_change_size 40;
                                          ev_click_toggle])))) = true /\
  settings
    (fst (state (mount (snd (state (sample_after [ev_change_size 40;
                                                  ev_click_toggle]))))))
  = settings (fst (state (sample_after [ev_change_size 40;
                                        ev_click_toggle]))).
Proof.
  assert (Hs : survives_JSON
                 (trailSize (fst (state (sample_after
                                           [ev_change_size 40;
                                            ev_click_toggle])))) = true)
    by (vm_compute; reflexivity).
  assert (Hf : survives_JSON
                 (fadeSpeed (fst (state (sample_after
                                           [ev_change_size 40;
                                            ev_click_toggle])))) = true)
    by (vm_compute; reflexivity).
  split; [apply sample_after_reachable|]. split; [exact Hs|].
  split; [exact Hf|].
  exact (reload_restores_settings sample_cos sample_sin _
           (sample_after_reachable [ev_change_size 40; ev_click_toggle])
           Hs Hf).
Defined.

Lemma capture_session_produces_the_recording_witness :
  recordingState (fst (state (mount sample_page))) <> recording /\
  has_getDisplayMedia (snd (state (mount sample_page))) = true /\
  exists s',
    capture_session sample_chunks (state (mount sample_page)) = Some s' /\
    recordingUrl (fst s') = Some (createObjectURL [1; 2; 3]).
Proof.
  assert (H1 : recordingState (fst (state (mount sample_page))) <> recording)
    by (vm_compute; discriminate).
  assert (H2 : has_getDisplayMedia (snd (state (mount sample_page))) = true)
    by reflexivity.
  split; [exact H1|]. split; [exact H2|].
  destruct (capture_session_produces_the_recording sample_chunks
              (state (mount sample_page)) H1 H2)
    as (s' & E & _ & U & _).
  exists s'. split; [exact E | exact U].
Defined.

Lemma failed_start_is_reported_witness :
  recordingState (fst (state (mount sample_page))) <> recording /\
  has_getDisplayMedia (snd (state (mount sample_page))) = true /\
  exists s',
    startRecording_rejected (Some "Permission denied")
      (startRecording (state (mount sample_page))) = Some s' /\
    recordingState (fst s') = idle /\
    recordingError (fst s') = "Permission denied".
Proof.
  assert (H1 : recordingState (fst (state (mount sample_page))) <> recording)
    by (vm_compute; discriminate).
  split; [exact H1|]. split; [reflexivity|].
  destruct (proj2 (failed_start_is_reported (state (mount sample_page))
                     (Some "Permission denied") H1) eq_refl)
    as (s' & E & Hidle & _ & Hgiven & _).
  exists s'. split; [exact E|]. split; [exact Hidle|].
  apply (Hgiven "Permission denied" eq_refl). discriminate.
Defined.

Lemma granted_stream_after_a_failed_start_witness :
  recordingState (fst (state (mount sample_page))) <> recording /\
  has_getDisplayMedia (snd (state (mount sample_page))) = true /\
  screenStreamRef (fst (state (mount sample_page))) = None /\
  exists s',
    startRecording_granted (constructor_throws None)
      (startRecording (state (mount sample_page))) = Some s' /\
    In 0 (live_streams (snd s')).
Proof.
  assert (H1 : recordingState (fst (state (mount sample_page))) <> recording)
    by (vm_compute; discriminate).
  split; [exact H1|]. split; [reflexivity|]. split; [reflexivity|].
  destruct (proj2 (granted_stream_after_a_failed_start
                     (state (mount sample_page)) None H1 eq_refl eq_refl))
    as (s' & E & _ & _ & L).
  exists s'. split; [exact E | exact L].
Defined.

Lemma stop_always_takes_effect_witness :
  reachable sample_cos sample_sin
    (sample_after [ev_click_record; ev_granted starts]) /\
  recordingState
    (fst (state (sample_after [ev_click_record; ev_granted starts])))
  = recording /\
  recordingState
    (fst (stopRecording
            (state (sample_after [ev_click_record; ev_granted starts]))))
  = processing.
Proof.
  assert (H : recordingState
                (fst (state (sample_after
                               [ev_click_record; ev_granted starts])))
              = recording) by (vm_compute; reflexivity).
  split; [apply sample_after_reachable|]. split; [exact H|].
  exact (proj1 (proj1 (stop_always_takes_effect sample_cos sample_sin _
                         (sample_after_reachable
                            [ev_click_record; ev_granted starts])) H)).
Defined.


Lemma host_applyPreset_by_id_witness :
  In canva_glow PRESET_COMBOS /\
  invoke call_applyPreset "signature-cyan" (initial_App, sample_page) =
  (applyPreset (Some canva_glow) initial_App, sample_page).
Proof.
  assert (H : In canva_glow PRESET_COMBOS) by (right; left; reflexivity).
  split; [exact H|].
  exact (proj1 (host_applyPreset_by_id (initial_App, sample_page)
                  canva_glow "") H).
Defined.

